(** * The cross-validation driver of main.py

    A shallow embedding of [src/main.py]: the fold generator [kFolds], the
    per-fold evaluation [getRmse], the argument parser set up at the top of
    [main] and the cross-validation loop at its end.

    Python objects that the code mutates (the rating list bound to
    [rawRatings] and [seq], the process-wide random generator, the algorithm
    instance) live in an explicit state that every operation threads; the
    modules that [main.py] imports and that are not part of it ([random],
    [time], [numpy], [stats], [dataset], [prediction_algorithms]) are
    variables of the section. *)

From Stdlib Require Import ZArith String Ascii Lia.
From stdpp Require Import base numbers list gmap strings.

Set Default Proof Using "Type".

(** ** Python lists *)

Section PyList.
Context {A : Type}.
Implicit Types l : list A.

(** [len(l)] *)
Definition len l : Z := Z.of_nat (length l).

(** A slice bound brought into [0, len], as [PySlice_AdjustIndices] does
    for a step of 1: a negative bound counts from the end. *)
Definition adjust_index (n i : Z) : Z :=
  if (i <? 0)%Z then (if (i + n <? 0)%Z then 0%Z else (i + n)%Z)
  else if (n <=? i)%Z then n else i.

(** [l[lo:hi]], a fresh list; [None] is an omitted bound. *)
Definition py_slice l (lo hi : option Z) : list A :=
  let n := len l in
  let start := match lo with Some i => adjust_index n i | None => 0%Z end in
  let stop := match hi with Some i => adjust_index n i | None => n end in
  take (Z.to_nat (stop - start)) (drop (Z.to_nat start) l).

(** [l[i], l[j] = l[j], l[i]]: both reads come first, then the two
    writes; [None] is Python's IndexError. *)
Definition swap l (i j : nat) : option (list A) :=
  match l !! j, l !! i with
  | Some y, Some x => Some (<[j := x]> (<[i := y]> l))
  | _, _ => None
  end.
End PyList.

(** ** The command line *)

(** The values of [algoChoices]: the classes imported from
    [prediction_algorithms]. *)
Inductive AlgoClass :=
| Random | BaselineOnly | KNNBasic | KNNBaseline | KNNWithMeans
| Parall | Pattern | CloneBruteforce | CloneMeanDiff | CloneKNNMeanDiff.

Definition algoChoices : gmap string AlgoClass :=
  list_to_map
    [("Random", Random); ("BaselineOnly", BaselineOnly);
     ("KNNBasic", KNNBasic); ("KNNBaseline", KNNBaseline);
     ("KNNWithMeans", KNNWithMeans); ("Parall", Parall);
     ("Pattern", Pattern); ("CloneBruteforce", CloneBruteforce);
     ("CloneMeanDiff", CloneMeanDiff);
     ("CloneKNNMeanDiff", CloneKNNMeanDiff)]%string.

Definition simChoices : list string := ["cos"; "pearson"; "MSD"; "MSDClone"]%string.
Definition methodChoices : list string := ["als"; "sgd"]%string.
Definition datasetChoices : list string := ["ml-100k"; "ml-1m"; "BX"; "jester"]%string.

(** What [parser.parse_args()] returns: [args.k ns] is [args.k]. *)
Module args.
Record Namespace := {
  algo : string;
  sim : string;
  method : string;
  k : Z;
  trainFile : option string;
  testFile : option string;
  dataset : string;
  cv : Z;
  seed : option Z;
  itemBased : bool;
  withDump : bool;
  indivOutput : bool
}.
End args.
Abbreviation Namespace := args.Namespace.

(** The [default=] of every [add_argument]. *)
Definition defaults : Namespace := {|
  args.algo := "KNNBaseline"; args.sim := "MSD"; args.method := "als";
  args.k := 40; args.trainFile := None; args.testFile := None;
  args.dataset := "ml-100k"; args.cv := 5; args.seed := None;
  args.itemBased := false; args.withDump := false; args.indivOutput := false
|}.


(** [ns.f = v] for each attribute [f] of the namespace. *)
Definition set_algo (v : string) (ns : Namespace) : Namespace :=
  {| args.algo := v; args.sim := args.sim ns; args.method := args.method ns;
     args.k := args.k ns; args.trainFile := args.trainFile ns;
     args.testFile := args.testFile ns; args.dataset := args.dataset ns;
     args.cv := args.cv ns; args.seed := args.seed ns;
     args.itemBased := args.itemBased ns; args.withDump := args.withDump ns;
     args.indivOutput := args.indivOutput ns |}.
Definition set_sim (v : string) (ns : Namespace) : Namespace :=
  {| args.algo := args.algo ns; args.sim := v; args.method := args.method ns;
     args.k := args.k ns; args.trainFile := args.trainFile ns;
     args.testFile := args.testFile ns; args.dataset := args.dataset ns;
     args.cv := args.cv ns; args.seed := args.seed ns;
     args.itemBased := args.itemBased ns; args.withDump := args.withDump ns;
     args.indivOutput := args.indivOutput ns |}.
Definition set_method (v : string) (ns : Namespace) : Namespace :=
  {| args.algo := args.algo ns; args.sim := args.sim ns; args.method := v;
     args.k := args.k ns; args.trainFile := args.trainFile ns;
     args.testFile := args.testFile ns; args.dataset := args.dataset ns;
     args.cv := args.cv ns; args.seed := args.seed ns;
     args.itemBased := args.itemBased ns; args.withDump := args.withDump ns;
     args.indivOutput := args.indivOutput ns |}.
Definition set_k (v : Z) (ns : Namespace) : Namespace :=
  {| args.algo := args.algo ns; args.sim := args.sim ns;
     args.method := args.method ns; args.k := v;
     args.trainFile := args.trainFile ns; args.testFile := args.testFile ns;
     args.dataset := args.dataset ns; args.cv := args.cv ns;
     args.seed := args.seed ns; args.itemBased := args.itemBased ns;
     args.withDump := args.withDump ns;
     args.indivOutput := args.indivOutput ns |}.
Definition set_trainFile (v : option string) (ns : Namespace) : Namespace :=
  {| args.algo := args.algo ns; args.sim := args.sim ns;
     args.method := args.method ns; args.k := args.k ns; args.trainFile := v;
     args.testFile := args.testFile ns; args.dataset := args.dataset ns;
     args.cv := args.cv ns; args.seed := args.seed ns;
     args.itemBased := args.itemBased ns; args.withDump := args.withDump ns;
     args.indivOutput := args.indivOutput ns |}.
Definition set_testFile (v : option string) (ns : Namespace) : Namespace :=
  {| args.algo := args.algo ns; args.sim := args.sim ns;
     args.method := args.method ns; args.k := args.k ns;
     args.trainFile := args.trainFile ns; args.testFile := v;
     args.dataset := args.dataset ns; args.cv := args.cv ns;
     args.seed := args.seed ns; args.itemBased := args.itemBased ns;
     args.withDump := args.withDump ns;
     args.indivOutput := args.indivOutput ns |}.
Definition set_dataset (v : string) (ns : Namespace) : Namespace :=
  {| args.algo := args.algo ns; args.sim := args.sim ns;
     args.method := args.method ns; args.k := args.k ns;
     args.trainFile := args.trainFile ns; args.testFile := args.testFile ns;
     args.dataset := v; args.cv := args.cv ns; args.seed := args.seed ns;
     args.itemBased := args.itemBased ns; args.withDump := args.withDump ns;
     args.indivOutput := args.indivOutput ns |}.
Definition set_cv (v : Z) (ns : Namespace) : Namespace :=
  {| args.algo := args.algo ns; args.sim := args.sim ns;
     args.method := args.method ns; args.k := args.k ns;
     args.trainFile := args.trainFile ns; args.testFile := args.testFile ns;
     args.dataset := args.dataset ns; args.cv := v;
     args.seed := args.seed ns; args.itemBased := args.itemBased ns;
     args.withDump := args.withDump ns;
     args.indivOutput := args.indivOutput ns |}.
Definition set_seed (v : option Z) (ns : Namespace) : Namespace :=
  {| args.algo := args.algo ns; args.sim := args.sim ns;
     args.method := args.method ns; args.k := args.k ns;
     args.trainFile := args.trainFile ns; args.testFile := args.testFile ns;
     args.dataset := args.dataset ns; args.cv := args.cv ns; args.seed := v;
     args.itemBased := args.itemBased ns; args.withDump := args.withDump ns;
     args.indivOutput := args.indivOutput ns |}.
Definition set_itemBased (v : bool) (ns : Namespace) : Namespace :=
  {| args.algo := args.algo ns; args.sim := args.sim ns;
     args.method := args.method ns; args.k := args.k ns;
     args.trainFile := args.trainFile ns; args.testFile := args.testFile ns;
     args.dataset := args.dataset ns; args.cv := args.cv ns;
     args.seed := args.seed ns; args.itemBased := v;
     args.withDump := args.withDump ns;
     args.indivOutput := args.indivOutput ns |}.
Definition set_withDump (v : bool) (ns : Namespace) : Namespace :=
  {| args.algo := args.algo ns; args.sim := args.sim ns;
     args.method := args.method ns; args.k := args.k ns;
     args.trainFile := args.trainFile ns; args.testFile := args.testFile ns;
     args.dataset := args.dataset ns; args.cv := args.cv ns;
     args.seed := args.seed ns; args.itemBased := args.itemBased ns;
     args.withDump := v; args.indivOutput := args.indivOutput ns |}.
Definition set_indivOutput (v : bool) (ns : Namespace) : Namespace :=
  {| args.algo := args.algo ns; args.sim := args.sim ns;
     args.method := args.method ns; args.k := args.k ns;
     args.trainFile := args.trainFile ns; args.testFile := args.testFile ns;
     args.dataset := args.dataset ns; args.cv := args.cv ns;
     args.seed := args.seed ns; args.itemBased := args.itemBased ns;
     args.withDump := args.withDump ns; args.indivOutput := v |}.

(** *** [int(s)], the [type=int] of [-k], [-cv] and [-seed] *)

Definition is_digit (c : ascii) : bool :=
  (48 <=? nat_of_ascii c)%nat && (nat_of_ascii c <=? 57)%nat.
Definition digit_value (c : ascii) : Z := Z.of_nat (nat_of_ascii c - 48).
(** The ASCII characters that [int] strips from both ends. *)
Definition is_space (c : ascii) : bool :=
  let n := nat_of_ascii c in
  ((9 <=? n)%nat && (n <=? 13)%nat) || ((28 <=? n)%nat && (n <=? 32)%nat).

(** Decimal digits, single underscores allowed between two digits. *)
Fixpoint digits (s : list ascii) (acc : Z) (after_digit : bool) : option Z :=
  match s with
  | [] => if after_digit then Some acc else None
  | c :: s' =>
      if is_digit c then digits s' (10 * acc + digit_value c)%Z true
      else if Ascii.eqb c "_" && after_digit then digits s' acc false
      else None
  end.

Fixpoint lstrip (s : list ascii) : list ascii :=
  match s with
  | c :: s' => if is_space c then lstrip s' else s
  | [] => []
  end.
Definition strip (s : list ascii) : list ascii :=
  rev (lstrip (rev (lstrip s))).

(** [int(s)]; [None] is ValueError. Characters beyond ASCII are not
    modelled. *)
Definition py_int (s : string) : option Z :=
  match strip (list_ascii_of_string s) with
  | "-"%char :: ds => Z.opp <$> digits ds 0 false
  | "+"%char :: ds => digits ds 0 false
  | ds => digits ds 0 false
  end.

(** *** [parser.parse_args()] *)

(** How [parse_args] ends a run: [parser.error] (usage message, exit status
    2) or [-h] (help, exit status 0). *)
Inductive usage_error :=
| InvalidChoice (option_string value : string)
| InvalidInt (option_string value : string)
| ExpectedOneArgument (option_string : string)
| Unrecognized (arg : string)
| Help.

Definition exit_status (e : usage_error) : Z :=
  match e with Help => 0 | _ => 2 end.

(** [value in choices] for a list of choices. *)
Definition in_choices (value : string) (choices : list string) : bool :=
  bool_decide (value ∈ choices).

(** The option strings that take one value, each with what its
    [add_argument] does with the value: [type=] conversion, [choices=]
    check, then the store into the namespace. *)
Definition store (option_string value : string) (ns : Namespace)
  : option (usage_error + Namespace) :=
  if String.eqb option_string "-algo" then
    Some (if bool_decide (is_Some (algoChoices !! value))
          then inr (set_algo value ns)
          else inl (InvalidChoice option_string value))
  else if String.eqb option_string "-sim" then
    Some (if in_choices value simChoices then inr (set_sim value ns)
          else inl (InvalidChoice option_string value))
  else if String.eqb option_string "-method" then
    Some (if in_choices value methodChoices then inr (set_method value ns)
          else inl (InvalidChoice option_string value))
  else if String.eqb option_string "-k" then
    Some (match py_int value with
          | Some n => inr (set_k n ns)
          | None => inl (InvalidInt option_string value)
          end)
  else if String.eqb option_string "-trainFile" then
    Some (inr (set_trainFile (Some value) ns))
  else if String.eqb option_string "-testFile" then
    Some (inr (set_testFile (Some value) ns))
  else if String.eqb option_string "-dataset" then
    Some (if in_choices value datasetChoices then inr (set_dataset value ns)
          else inl (InvalidChoice option_string value))
  else if String.eqb option_string "-cv" then
    Some (match py_int value with
          | Some n => inr (set_cv n ns)
          | None => inl (InvalidInt option_string value)
          end)
  else if String.eqb option_string "-seed" then
    Some (match py_int value with
          | Some n => inr (set_seed (Some n) ns)
          | None => inl (InvalidInt option_string value)
          end)
  else None.

(** The [store_const] flags. *)
Definition store_const (option_string : string) (ns : Namespace)
  : option Namespace :=
  if String.eqb option_string "--itemBased" then Some (set_itemBased true ns)
  else if String.eqb option_string "--withDump" then Some (set_withDump true ns)
  else if String.eqb option_string "--indivOutput" then
    Some (set_indivOutput true ns)
  else None.

(** [-\d+] or [-\d*\.\d+] without its leading [-]: what [argparse] takes
    for a negative number. *)
Fixpoint is_unsigned_number (cs : list ascii) (seen_digit : bool) : bool :=
  match cs with
  | [] => seen_digit
  | c :: cs' =>
      if is_digit c then is_unsigned_number cs' true
      else if Ascii.eqb c "." then
        match cs' with
        | [] => false
        | _ => forallb is_digit cs'
        end
      else false
  end.

(** An argument that [argparse] reads as an option rather than as a value:
    it starts with [-], is not [-] alone and is not a negative number. *)
Definition looks_like_option (arg : string) : bool :=
  match list_ascii_of_string arg with
  | "-"%char :: c :: cs => negb (is_unsigned_number (c :: cs) false)
  | _ => false
  end.

(** The arguments from left to right. Modelled: each option string written
    in full and followed by its value as the next argument; the
    abbreviations and the [-opt=value] form that [argparse] also accepts are
    not, nor are arguments with a space in them. The first refusal from the
    left ends the parse; [argparse] keeps an unrecognized argument aside and
    reports it once the rest is parsed, so a command line with several
    faults is refused there too, for the fault it meets first. *)
Fixpoint parse (argv : list string) (ns : Namespace) : usage_error + Namespace :=
  match argv with
  | [] => inr ns
  | arg :: rest =>
      if String.eqb arg "-h" || String.eqb arg "--help" then inl Help
      else
        match store_const arg ns with
        | Some ns' => parse rest ns'
        | None =>
            match rest with
            | value :: rest' =>
                if looks_like_option value then
                  match store arg value ns with
                  | Some _ => inl (ExpectedOneArgument arg)
                  | None => inl (Unrecognized arg)
                  end
                else
                  match store arg value ns with
                  | Some (inr ns') => parse rest' ns'
                  | Some (inl e) => inl e
                  | None => inl (Unrecognized arg)
                  end
            | [] =>
                match store arg ""%string ns with
                | Some _ => inl (ExpectedOneArgument arg)
                | None => inl (Unrecognized arg)
                end
            end
        end
  end.

Definition parse_args (argv : list string) : usage_error + Namespace :=
  parse argv defaults.

(** The truth value of [args.trainFile] and of [args.testFile]: [None] and
    the empty string are false. *)
Definition truthy (o : option string) : bool :=
  match o with
  | Some s => negb (String.eqb s "")
  | None => false
  end.

(** The names of a namespace are among the choices of their options. *)
Definition valid_names (ns : Namespace) : Prop :=
  is_Some (algoChoices !! args.algo ns)
  /\ args.sim ns ∈ simChoices
  /\ args.method ns ∈ methodChoices
  /\ args.dataset ns ∈ datasetChoices.

(** Every configuration error is caught by [parse_args]: what it lets
    through has known names, a positive neighbor count and a positive fold
    count. *)
Definition configuration_errors_caught : Prop :=
  forall argv ns,
    parse_args argv = inr ns ->
    valid_names ns /\ (0 < args.k ns)%Z /\ (0 < args.cv ns)%Z.

(** ** State, exceptions and the imported modules *)

Section Driver.
(** A raw rating as [getRawRatings] returns it, the raw user and item ids,
    ratings and time stamps a reader extracts from it. *)
Context {Raw RawId Rating Stamp : Type} `{Countable RawId}.
(** The state of Python's global random generator; whatever else the
    imported modules read and change (clock, files, terminal). *)
Context {G W : Type}.
(** [time.process_time()] values, the values of an [infos] mapping, the
    private state of an algorithm instance, the statistic [computeStats]
    returns, the exceptions of the imported modules. *)
Context {Time InfoVal Model F Err : Type}.

(** An item of [reader.ratings]: [(rawUser, rawItem, rating, timestamp)]. *)
Definition rating_t : Type := RawId * RawId * Rating * Stamp.
(** A reader class: from the raw ratings to [.ratings]. *)
Definition Reader : Type := list Raw -> list rating_t.
(** A Prediction Record, with the ids [predict] was called with. *)
Definition prediction : Type := nat * nat * Rating * Rating.
(** What [kFolds] yields: [(trainSet, testSet)]. *)
Definition fold_t : Type := list Raw * list Raw.

(** *** Training data *)

(** Modelled from the spec: the class [TrainingData] of [dataset.py], which
    is not part of [main.py]. It owns the Id Index, one mapping for users and
    one for items, and the ratings it was built from. *)
Record TrainingData := {
  rawToInnerIdUsers : gmap RawId nat;
  rawToInnerIdItems : gmap RawId nat;
  ratings : list rating_t
}.

(** Modelled from the spec: inner ids are dense, from 0, given in the order
    in which the raw ids are first seen. *)
Definition index_id (index : gmap RawId nat) (raw : RawId) : gmap RawId nat :=
  match index !! raw with
  | Some _ => index
  | None => <[raw := size index]> index
  end.
Definition id_index (raws : list RawId) : gmap RawId nat :=
  foldl index_id ∅ raws.

Definition rawUser (r : rating_t) : RawId := r.1.1.1.
Definition rawItem (r : rating_t) : RawId := r.1.1.2.

Inductive exn :=
| KeyError
| IndexError
| ZeroDivisionError
| EmptyRatings              (* how [TrainingData] fails on no rating at all *)
| SystemExit (status : Z)   (* how [parse_args] reports a bad command line *)
| Raised (e : Err)          (* an exception of an imported module *)
| Diverged.                 (* the bound of a modelled loop was reached *)

(** Modelled from the spec: [TrainingData(reader)], which fails on an empty
    rating list. *)
Definition new_TrainingData (rs : list rating_t) : exn + TrainingData :=
  match rs with
  | [] => inl EmptyRatings
  | _ => inr {| rawToInnerIdUsers := id_index (rawUser <$> rs);
                rawToInnerIdItems := id_index (rawItem <$> rs);
                ratings := rs |}
  end.

(** What [print] is given. *)
Inductive output :=
| Line (s : string)
| Query (u0 i0 : RawId) (r0 : Rating)
| FoldNumber (n : Z)
| Args (ns : Namespace)
| MeanRmse (m : F).

(** What a run does, in order: the calls into the imported modules and the
    prints. *)
Inductive event :=
| Seed (s : option Z)
| MakeDirs
| GetRawRatings (dataset : string) (file : option string)
| Shuffle
| NewTrainingData (ratings : list rating_t)
| NewAlgo (c : AlgoClass) (trainingData : TrainingData)
| Predict (u i : nat) (r : Rating)
| DumpInfos (infos : gmap string InfoVal) (preds : list prediction)
| ComputeStats (preds : list prediction)
| Print (o : output).

(** [rawRatings] is the one list object that [main] binds to [rawRatings]
    and [kFolds] to [seq]. *)
Record state := {
  rawRatings : list Raw;
  rng : G;
  world : W;
  trace : list event
}.

Definition M (X : Type) : Type := state -> (exn + X) * state.

Definition ret {X} (x : X) : M X := fun st => (inr x, st).
Definition raise {X} (e : exn) : M X := fun st => (inl e, st).
Definition bind {X Y} (m : M X) (f : X -> M Y) : M Y := fun st =>
  match m st with
  | (inr x, st') => f x st'
  | (inl e, st') => (inl e, st')
  end.

Local Notation "x <- m ;; f" := (bind m (fun x => f))
  (at level 100, m at next level, right associativity).
Local Notation "m ;; f" := (bind m (fun _ => f))
  (at level 100, right associativity).

Definition emit (e : event) : M unit := fun st =>
  (inr tt, {| rawRatings := rawRatings st; rng := rng st;
              world := world st; trace := trace st ++ [e] |}).
Definition print (o : output) : M unit := emit (Print o).
(** [if c: m] *)
Definition when (c : bool) (m : M unit) : M unit := if c then m else ret tt.

Definition of_result {X} (r : Err + X) : exn + X :=
  match r with inl e => inl (Raised e) | inr x => inr x end.
(** A call into an imported module that reads and changes the world. *)
Definition call {X} (f : W -> (Err + X) * W) : M X := fun st =>
  let '(r, w) := f (world st) in
  (of_result r, {| rawRatings := rawRatings st; rng := rng st;
                   world := w; trace := trace st |}).
(** A call that may also draw random numbers. *)
Definition call_rng {X} (f : G -> W -> (Err + X) * (G * W)) : M X := fun st =>
  let '(r, (g, w)) := f (rng st) (world st) in
  (of_result r, {| rawRatings := rawRatings st; rng := g;
                   world := w; trace := trace st |}).

(** *** [random] *)

(** [Random._randbelow(n)]: an integer of [range(n)]. *)
Variable randbelow : G -> nat -> nat * G.
Hypothesis randbelow_lt : forall g n, (0 < n)%nat -> (fst (randbelow g n) < n)%nat.
(** [random.seed(a)] for an integer, and for [None] (seeded from the
    operating system). *)
Variable seed_int : Z -> G.
Variable seed_os : W -> G * W.

(** The loop of [random.shuffle(x)]:
    [for i in reversed(range(1, len(x))): j = randbelow(i + 1);
     x[i], x[j] = x[j], x[i]], entered at index [i]. *)
Fixpoint shuffle_from (i : nat) (x : list Raw) (g : G) : option (list Raw * G) :=
  match i with
  | O => Some (x, g)
  | S i' =>
      let '(j, g') := randbelow g (i + 1) in
      match swap x i j with
      | Some x' => shuffle_from i' x' g'
      | None => None
      end
  end.
Definition shuffle (x : list Raw) (g : G) : option (list Raw * G) :=
  shuffle_from (length x - 1) x g.

(** [rd.seed(a)] *)
Definition rd_seed (a : option Z) : M unit := fun st =>
  let '(g, w) := match a with
                 | Some n => (seed_int n, world st)
                 | None => seed_os (world st)
                 end in
  (inr tt, {| rawRatings := rawRatings st; rng := g; world := w;
              trace := trace st ++ [Seed a] |}).

(** [rd.shuffle(seq)], on the list object itself. *)
Definition rd_shuffle : M unit := fun st =>
  match shuffle (rawRatings st) (rng st) with
  | Some (x, g) =>
      (inr tt, {| rawRatings := x; rng := g; world := world st;
                  trace := trace st ++ [Shuffle] |})
  | None => (inl IndexError, st)
  end.

(** ** [kFolds] *)

(** A generator object of [kFolds]: created and not started, suspended at
    the [yield] with its local variables, or returned. The local [seq] is
    the list object [rawRatings] of the state. *)
Inductive generator :=
| Created (k : Z)
| Suspended (k fold start stop : Z)
| Returned.

(** Calling a generator function runs none of its body. *)
Definition kFolds (k : Z) : generator := Created k.

Definition floordiv (a b : Z) : M Z :=
  if decide (b = 0%Z) then raise ZeroDivisionError else ret (a / b)%Z.
Definition modulo (a b : Z) : M Z :=
  if decide (b = 0%Z) then raise ZeroDivisionError else ret (a mod b)%Z.
Definition get_seq : M (list Raw) := fun st => (inr (rawRatings st), st).

(** The [for fold in range(k)] loop about to take the value [fold], with
    [stop] as the previous turn left it: one turn up to the [yield], or the
    end of the function. *)
Definition kFolds_turn (k fold stop : Z) : M (option fold_t * generator) :=
  if (fold <? k)%Z then
    let start := stop in
    seq <- get_seq ;;
    q <- floordiv (len seq) k ;;
    let stop := (stop + q)%Z in
    r <- modulo (len seq) k ;;
    let stop := if (fold <? r)%Z then (stop + 1)%Z else stop in
    ret (Some (py_slice seq None (Some start) ++ py_slice seq (Some stop) None,
               py_slice seq (Some start) (Some stop)),
         Suspended k fold start stop)
  else ret (None, Returned).

(** [next(g)]; [None] is StopIteration. *)
Definition next (g : generator) : M (option fold_t * generator) :=
  match g with
  | Created k => rd_shuffle ;; kFolds_turn k 0 0
  | Suspended k fold _ stop => kFolds_turn k (fold + 1) stop
  | Returned => ret (None, Returned)
  end.

(** [list(g)]: the generator run to its end. [fuel] bounds the number of
    [next] calls. *)
Fixpoint py_list (fuel : nat) (g : generator) : M (list fold_t) :=
  match fuel with
  | O => raise Diverged
  | S fuel' =>
      r <- next g ;;
      match r with
      | (Some x, g') => xs <- py_list fuel' g' ;; ret (x :: xs)
      | (None, _) => ret []
      end
  end.

(** *** The folds, in closed form *)

(** Where fold [i] of a list of [n] items begins: [i] turns of
    [stop += n // k], with one more for each earlier fold below [n % k]. *)
Definition fold_start (n k i : Z) : Z := (i * (n / k) + Z.min i (n mod k))%Z.

(** Fold [i] of the list [s], as the [yield] builds it. *)
Definition fold_at (s : list Raw) (k i : Z) : fold_t :=
  let a := fold_start (len s) k i in
  let b := fold_start (len s) k (i + 1) in
  (py_slice s None (Some a) ++ py_slice s (Some b) None,
   py_slice s (Some a) (Some b)).

(** The state [rd.shuffle] leaves. *)
Definition shuffled (st : state) (s : list Raw) (g : G) : state :=
  {| rawRatings := s; rng := g; world := world st;
     trace := trace st ++ [Shuffle] |}.

(** Index by index, fold [i] sends the range [a, b) of the list to the
    test set and everything else to the training set. *)
Definition splits_at (s : list Raw) (a b : Z) (f : fold_t) : Prop :=
  f.2 = py_slice s (Some a) (Some b)
  /\ f.1 = py_slice s None (Some a) ++ py_slice s (Some b) None
  /\ (length f.1 + length f.2 = length s)%nat
  /\ forall j : nat, (j < length s)%nat ->
       if decide (a <= Z.of_nat j < b)%Z
       then f.2 !! (j - Z.to_nat a)%nat = s !! j
       else f.1 !! (if decide (Z.of_nat j < a)%Z then j
                    else (j - Z.to_nat (b - a))%nat) = s !! j.

(** ** [getRmse] *)

(** *** The imported modules it calls *)

(** [time.process_time()] and the difference of two of its values; how a
    time is stored in [infos]. *)
Variable process_time : W -> Time * W.
Variable time_sub : Time -> Time -> Time.
Variable info_time : Time -> InfoVal.
(** The constructor of an algorithm class,
    [cls(trainingData, itemBased=, method=, sim=, k=)]: the private state of
    the new instance and its first [infos]. *)
Variable algo_init :
  AlgoClass -> TrainingData -> bool -> string -> string -> Z ->
  G -> W -> (Err + (Model * gmap string InfoVal)) * (G * W).
(** What [predict(u, i, r, output)] computes: the estimate, with the private
    state and the [infos] it leaves. *)
Variable estimate :
  Model -> gmap string InfoVal -> nat -> nat -> Rating -> bool ->
  G -> W -> (Err + (Rating * Model * gmap string InfoVal)) * (G * W).
(** What [dumpInfos()] does with [infos] and [preds]. *)
Variable dump :
  gmap string InfoVal -> list prediction -> W -> (Err + unit) * W.
(** [stats.computeStats(preds)]. *)
Variable stats_computeStats : list prediction -> W -> (Err + F) * W.

(** An algorithm instance: the attributes [main.py] reads and writes, and
    the rest. *)
Record Algo := {
  infos : gmap string InfoVal;
  preds : list prediction;
  model : Model
}.

Definition clock : M Time := fun st =>
  let '(t, w) := process_time (world st) in
  (inr t, {| rawRatings := rawRatings st; rng := rng st;
             world := w; trace := trace st |}).

(** [d[key]] *)
Definition getitem {K V} `{Countable K} (d : gmap K V) (key : K) : M V :=
  match d !! key with
  | Some v => ret v
  | None => raise KeyError
  end.

(** [try: body / except KeyError: handler] *)
Definition try_except_KeyError {X} (body handler : M X) : M X := fun st =>
  match body st with
  | (inl KeyError, st') => handler st'
  | r => r
  end.

(** [TrainingData(readerTrain)] *)
Definition make_TrainingData (rs : list rating_t) : M TrainingData :=
  emit (NewTrainingData rs) ;;
  match new_TrainingData rs with
  | inr trainingData => ret trainingData
  | inl e => raise e
  end.

(** Modelled from the spec: a new instance has accumulated no Prediction
    Record yet. *)
Definition new_algo (c : AlgoClass) (trainingData : TrainingData)
    (itemBased : bool) (method sim : string) (k : Z) : M Algo :=
  emit (NewAlgo c trainingData) ;;
  r <- call_rng (algo_init c trainingData itemBased method sim k) ;;
  ret {| infos := r.2; preds := []; model := r.1 |}.

(** Modelled from the spec: [algo.predict(u0, i0, r0, output)] appends one
    Prediction Record to [preds]. *)
Definition predict (a : Algo) (u0 i0 : nat) (r0 : Rating) (output : bool)
  : M Algo :=
  emit (Predict u0 i0 r0) ;;
  r <- call_rng (estimate (model a) (infos a) u0 i0 r0 output) ;;
  ret {| infos := r.2; preds := preds a ++ [(u0, i0, r0, r.1.1)];
         model := r.1.2 |}.

Definition dumpInfos (a : Algo) : M unit :=
  emit (DumpInfos (infos a) (preds a)) ;; call (dump (infos a) (preds a)).

Definition computeStats (ps : list prediction) : M F :=
  emit (ComputeStats ps) ;; call (stats_computeStats ps).

(** [algo.infos[key] = v] *)
Definition set_info (key : string) (v : InfoVal) (a : Algo) : Algo :=
  {| infos := <[key := v]> (infos a); preds := preds a; model := model a |}.

(** *** The function *)

(** The two lookups under [try], lines 169-175; [None] is the [continue] of
    the handler. *)
Definition inner_ids (ns : Namespace) (trainingData : TrainingData)
    (u0 i0 : RawId) : M (option (nat * nat)) :=
  try_except_KeyError
    (u0 <- getitem (rawToInnerIdUsers trainingData) u0 ;;
     i0 <- getitem (rawToInnerIdItems trainingData) i0 ;;
     ret (Some (u0, i0)))
    (when (args.indivOutput ns)
       (print (Line "user or item wasn't used for training. Skipping")) ;;
     ret None).

(** The body of [for u0, i0, r0, _ in readerTest.ratings], lines 165-180. *)
Definition test_query (ns : Namespace) (trainingData : TrainingData)
    (a : Algo) (q : rating_t) : M Algo :=
  let '(u0, i0, r0, _) := q in
  when (args.indivOutput ns) (print (Query u0 i0 r0)) ;;
  ids <- inner_ids ns trainingData u0 i0 ;;
  match ids with
  | None => ret a
  | Some (u0, i0) =>
      a <- predict a u0 i0 r0 (args.indivOutput ns) ;;
      when (args.indivOutput ns) (print (Line "---------------")) ;;
      ret a
  end.

(** The [for] statement of line 164. *)
Fixpoint test_loop (ns : Namespace) (trainingData : TrainingData)
    (qs : list rating_t) (a : Algo) : M Algo :=
  match qs with
  | [] => ret a
  | q :: qs' =>
      a <- test_query ns trainingData a q ;;
      test_loop ns trainingData qs' a
  end.

(** [getRmse(trainRawRatings, testRawRatings)], with the [args] and the
    [ReaderClass] of the enclosing [main]. *)
Definition getRmse (ns : Namespace) (ReaderClass : Reader)
    (trainRawRatings testRawRatings : list Raw) : M F :=
  let readerTrain := ReaderClass trainRawRatings in
  let readerTest := ReaderClass testRawRatings in
  trainingData <- make_TrainingData readerTrain ;;
  trainStartTime <- clock ;;
  t <- clock ;;
  let trainingTime := time_sub t trainStartTime in
  c <- getitem algoChoices (args.algo ns) ;;
  a <- new_algo c trainingData (args.itemBased ns) (args.method ns)
         (args.sim ns) (args.k ns) ;;
  print (Line "computing predictions...") ;;
  testTimeStart <- clock ;;
  a <- test_loop ns trainingData readerTest a ;;
  t <- clock ;;
  let testingTime := time_sub t testTimeStart in
  when (args.indivOutput ns) (print (Line "--------------------")) ;;
  let a := set_info "trainingTime" (info_time trainingTime) a in
  let a := set_info "testingTime" (info_time testingTime) a in
  dumpInfos a ;;
  print (Line "--------------------") ;;
  print (Line "Results:") ;;
  computeStats (preds a).

(** ** [main] *)

(** The [os.path.exists('datasets')] test with the [os.makedirs] it guards;
    [dataset.getRawRatings(name, file)]; [numpy.mean]. *)
Variable ensure_datasets_dir : W -> (Err + unit) * W.
Variable dataset_getRawRatings :
  string -> option string -> W -> (Err + (list Raw * Reader)) * W.
Variable np_mean : list F -> F.

Definition getRawRatings (name : string) (file : option string)
  : M (list Raw * Reader) :=
  emit (GetRawRatings name file) ;; call (dataset_getRawRatings name file).

(** [rawRatings = l]: the name is bound to the list object. *)
Definition bind_rawRatings (l : list Raw) : M unit := fun st =>
  (inr tt, {| rawRatings := l; rng := rng st; world := world st;
              trace := trace st |}).

(** The three prints that open the body of the [for] over the folds, lines
    206-208; [foldNumber] is the count that [enumerate] adds. *)
Definition announce (foldNumber : Z) : M unit :=
  print (Line "-------------------") ;;
  print (FoldNumber (foldNumber + 1)) ;;
  print (Line "-------------------").

(** The body of the [for] over the folds, lines 206-209. *)
Definition fold_body (ns : Namespace) (ReaderClass : Reader)
    (foldNumber : Z) (fold : fold_t) (rmses : list F) : M (list F) :=
  let '(trainSet, testSet) := fold in
  announce foldNumber ;;
  r <- getRmse ns ReaderClass trainSet testSet ;;
  ret (rmses ++ [r]).

(** [for foldNumber, fold in enumerate(g): body]: [next] until
    StopIteration. [fuel] bounds the number of turns. *)
Fixpoint for_enumerate (fuel : nat) (g : generator) (foldNumber : Z)
    (body : Z -> fold_t -> list F -> M (list F)) (rmses : list F)
  : M (list F) :=
  match fuel with
  | O => raise Diverged
  | S fuel' =>
      r <- next g ;;
      match r with
      | (Some fold, g') =>
          rmses <- body foldNumber fold rmses ;;
          for_enumerate fuel' g' (foldNumber + 1) body rmses
      | (None, _) => ret rmses
      end
  end.

(** The [else] branch of line 202: cross-validation. The generator of
    [kFolds(rawRatings, args.cv)] answers at most [args.cv] times with a
    fold and once with StopIteration. *)
Definition cross_validate (ns : Namespace) (rmses : list F) : M (list F) :=
  r <- getRawRatings (args.dataset ns) None ;;
  let '(l, ReaderClass) := r in
  bind_rawRatings l ;;
  for_enumerate (S (Z.to_nat (args.cv ns))) (kFolds (args.cv ns)) 0
    (fold_body ns ReaderClass) rmses.

(** The [if] branch of line 195: one training file, one test file. *)
Definition train_test_files (ns : Namespace) (rmses : list F) : M (list F) :=
  r <- getRawRatings (args.dataset ns) (args.trainFile ns) ;;
  let '(trainRawRatings, _) := r in
  r <- getRawRatings (args.dataset ns) (args.testFile ns) ;;
  let '(testRawRatings, ReaderClass) := r in
  r <- getRmse ns ReaderClass trainRawRatings testRawRatings ;;
  ret (rmses ++ [r]).

(** [main()], on the arguments of the command line; its value is the mean
    it prints last. *)
Definition main (argv : list string) : M F :=
  match parse_args argv with
  | inl e => raise (SystemExit (exit_status e))
  | inr ns =>
      rd_seed (args.seed ns) ;;
      emit MakeDirs ;;
      call ensure_datasets_dir ;;
      let rmses := [] in
      rmses <- (if truthy (args.trainFile ns) && truthy (args.testFile ns)
                then train_test_files ns rmses
                else cross_validate ns rmses) ;;
      print (Args ns) ;;
      let m := np_mean rmses in
      print (MeanRmse m) ;;
      ret m
  end.

(** ** Cross-validation as the specification words it *)

(** Every fold of a list in order, one value of [getRmse] for each. *)
Fixpoint evaluate_folds (ns : Namespace) (ReaderClass : Reader)
    (foldNumber : Z) (folds : list fold_t) : M (list F) :=
  match folds with
  | [] => ret []
  | fold :: folds' =>
      announce foldNumber ;;
      r <- getRmse ns ReaderClass fold.1 fold.2 ;;
      rs <- evaluate_folds ns ReaderClass (foldNumber + 1) folds' ;;
      ret (r :: rs)
  end.

(** The folds of the list [s]. *)
Definition folds_of (s : list Raw) (k : Z) : list fold_t :=
  fold_at s k <$> seqZ 0 k.

(** Cross-validation in the words of the specification: the raw ratings are
    loaded and shuffled once, the folds are cut out of the shuffled list,
    each fold in order gives one value of [getRmse], and the mean of these
    values is reported. *)
Definition cross_validation_spec (ns : Namespace) : M F :=
  rd_seed (args.seed ns) ;;
  emit MakeDirs ;;
  call ensure_datasets_dir ;;
  r <- getRawRatings (args.dataset ns) None ;;
  bind_rawRatings r.1 ;;
  rd_shuffle ;;
  s <- get_seq ;;
  rmses <- evaluate_folds ns r.2 0 (folds_of s (args.cv ns)) ;;
  print (Args ns) ;;
  print (MeanRmse (np_mean rmses)) ;;
  ret (np_mean rmses).

(** The test ratings whose user and item are both in the Id Index, with
    their inner ids: the queries that reach [predict]. *)
Definition known_queries (trainingData : TrainingData) (qs : list rating_t)
  : list (nat * nat * Rating) :=
  omap (fun q : rating_t =>
          match rawToInnerIdUsers trainingData !! rawUser q,
                rawToInnerIdItems trainingData !! rawItem q with
          | Some u, Some i => Some (u, i, q.1.2)
          | _, _ => None
          end) qs.

(** A Prediction Record without its estimate. *)
Definition query_of (p : prediction) : nat * nat * Rating :=
  (p.1.1.1, p.1.1.2, p.1.2).

(** The state with [evs] added to its trace. *)
Definition logged (st : state) (evs : list event) : state :=
  {| rawRatings := rawRatings st; rng := rng st; world := world st;
     trace := trace st ++ evs |}.

(** What a skipped query prints: nothing unless [--indivOutput]. *)
Definition skip_output (ns : Namespace) (q : rating_t) : list event :=
  if args.indivOutput ns
  then [Print (Query (rawUser q) (rawItem q) q.1.2);
        Print (Line "user or item wasn't used for training. Skipping")]
  else [].



(** The [infos] in a [DumpInfos] event has the two times. *)
Definition has_times (e : event) : Prop :=
  forall inf ps, e = DumpInfos inf ps ->
    is_Some (inf !! "trainingTime"%string)
    /\ is_Some (inf !! "testingTime"%string).

(** [main] after [parse_args], up to the evaluation that fills [rmses]. *)
Definition main_evaluation (ns : Namespace) : M (list F) :=
  rd_seed (args.seed ns) ;;
  emit MakeDirs ;;
  call ensure_datasets_dir ;;
  if truthy (args.trainFile ns) && truthy (args.testFile ns)
  then train_test_files ns []
  else cross_validate ns [].

(** ** More of [main.py]: what the properties below speak of *)

(** Two namespaces with the same values for the options that [getRmse]
    reads. *)
Definition same_algorithm_options (ns1 ns2 : Namespace) : Prop :=
  args.algo ns1 = args.algo ns2
  /\ args.itemBased ns1 = args.itemBased ns2
  /\ args.method ns1 = args.method ns2
  /\ args.sim ns1 = args.sim ns2
  /\ args.k ns1 = args.k ns2
  /\ args.indivOutput ns1 = args.indivOutput ns2.

(** The state with another random generator. *)
Definition with_rng (g : G) (st : state) : state :=
  {| rawRatings := rawRatings st; rng := g; world := world st;
     trace := trace st |}.

(** The print of the namespace, line 211. *)
Definition is_print_args (e : event) : bool :=
  match e with Print (Args _) => true | _ => false end.

(** Two runs of [main] with the same outcome: the same value or exception,
    the same list object, generator and world at the end, and the same
    trace but for the namespace that is printed. *)
Definition same_outcome (r1 r2 : (exn + F) * state) : Prop :=
  r1.1 = r2.1
  /\ rawRatings r1.2 = rawRatings r2.2
  /\ rng r1.2 = rng r2.2
  /\ world r1.2 = world r2.2
  /\ List.filter (fun e => negb (is_print_args e)) (trace r1.2)
     = List.filter (fun e => negb (is_print_args e)) (trace r2.2).
(** * Properties *)

(** ** Slices and swaps *)

Section PyListFacts.
Context {A : Type}.
Implicit Types l : list A.

Lemma len_nonneg l : (0 <= len l)%Z.
Proof. unfold len. lia. Qed.

Lemma adjust_index_id n i : (0 <= i <= n)%Z -> adjust_index n i = i.
Proof.
  intros Hi. unfold adjust_index.
  destruct (Z.ltb_spec i 0); [lia|].
  destruct (Z.leb_spec n i); lia.
Qed.

Lemma py_slice_prefix l a :
  (0 <= a <= len l)%Z -> py_slice l None (Some a) = take (Z.to_nat a) l.
Proof.
  intros Ha. unfold py_slice. rewrite adjust_index_id by done.
  by rewrite Z.sub_0_r.
Qed.

Lemma py_slice_suffix l b :
  (0 <= b <= len l)%Z -> py_slice l (Some b) None = drop (Z.to_nat b) l.
Proof.
  intros Hb. unfold py_slice. rewrite adjust_index_id by done.
  apply take_ge. rewrite length_drop. unfold len in *. lia.
Qed.

Lemma py_slice_range l a b :
  (0 <= a <= b)%Z -> (b <= len l)%Z ->
  py_slice l (Some a) (Some b) = take (Z.to_nat (b - a)) (drop (Z.to_nat a) l).
Proof.
  intros Ha Hb. unfold py_slice. by rewrite !adjust_index_id by lia.
Qed.

Lemma py_slice_range_length l a b :
  (0 <= a <= b)%Z -> (b <= len l)%Z ->
  len (py_slice l (Some a) (Some b)) = (b - a)%Z.
Proof.
  intros Ha Hb. rewrite py_slice_range by done.
  unfold len in *. rewrite length_take, length_drop. lia.
Qed.

(** The two pieces of a training set and the test set between them are the
    whole list. *)
Lemma py_slice_split l a b :
  (0 <= a <= b)%Z -> (b <= len l)%Z ->
  (py_slice l None (Some a) ++ py_slice l (Some b) None)
    ++ py_slice l (Some a) (Some b) ≡ₚ l.
Proof.
  intros Ha Hb.
  rewrite py_slice_prefix, py_slice_suffix, py_slice_range by lia.
  assert (l = take (Z.to_nat a) l
              ++ take (Z.to_nat (b - a)) (drop (Z.to_nat a) l)
              ++ drop (Z.to_nat b) l) as Hl.
  { replace (Z.to_nat b) with (Z.to_nat a + Z.to_nat (b - a))%nat by lia.
    by rewrite <-drop_drop, !take_drop. }
  rewrite Hl at 4.
  rewrite <-(assoc_L (++)). f_equiv. apply (comm (++)).
Qed.

Lemma swap_head_Permutation l j x y :
  l !! j = Some y -> y :: <[j := x]> l ≡ₚ x :: l.
Proof.
  revert j. induction l as [|a l IH]; intros [|j] Hj; simplify_eq/=.
  - apply perm_swap.
  - rewrite (perm_swap a y), (IH j Hj). apply perm_swap.
Qed.

Lemma swap_Permutation l i j l' : swap l i j = Some l' -> l' ≡ₚ l.
Proof.
  unfold swap.
  destruct (l !! j) as [y|] eqn:Hj; [|done].
  destruct (l !! i) as [x|] eqn:Hi; [|done].
  intros [= <-]. revert i j Hi Hj.
  induction l as [|a l IH]; intros [|i] [|j] Hi Hj; simplify_eq/=; try done.
  - by apply swap_head_Permutation.
  - by apply swap_head_Permutation.
  - by rewrite IH.
Qed.

Lemma swap_length l i j l' : swap l i j = Some l' -> length l' = length l.
Proof. intros Hs. by rewrite (swap_Permutation _ _ _ _ Hs). Qed.

Lemma swap_in_range l i j :
  (i < length l)%nat -> (j < length l)%nat -> is_Some (swap l i j).
Proof.
  intros [x Hx]%lookup_lt_is_Some_2 [y Hy]%lookup_lt_is_Some_2.
  unfold swap. rewrite Hx, Hy. eauto.
Qed.
End PyListFacts.

(** ** The command line *)

Lemma valid_names_defaults : valid_names defaults.
Proof.
  unfold valid_names, defaults, simChoices, methodChoices, datasetChoices.
  simpl. split; [by vm_compute; eauto|].
  repeat split; apply (bool_decide_unpack _); by vm_compute.
Qed.

Lemma store_const_valid option_string ns ns' :
  valid_names ns -> store_const option_string ns = Some ns' -> valid_names ns'.
Proof.
  intros Hns. unfold store_const.
  repeat (destruct (String.eqb option_string _); [by intros [= <-]|]).
  done.
Qed.

Lemma store_valid option_string value ns ns' :
  valid_names ns ->
  store option_string value ns = Some (inr ns') -> valid_names ns'.
Proof.
  intros (Halgo & Hsim & Hmethod & Hdataset). unfold store, in_choices.
  repeat
    (destruct (String.eqb option_string _);
     [ first
         [ by intros [= <-]
         | destruct (py_int value); by intros [= <-]
         | case_bool_decide; [|done]; intros [= <-]; by repeat split ]
     | ]).
  done.
Qed.

Lemma parse_valid_bounded (n : nat) : forall argv ns ns',
  (length argv <= n)%nat ->
  valid_names ns -> parse argv ns = inr ns' -> valid_names ns'.
Proof.
  induction n as [|n IH]; intros [|arg rest] ns ns' Hlen Hns; simpl in *;
    try (by intros [= <-]); [lia|].
  destruct (String.eqb arg "-h" || String.eqb arg "--help"); [done|].
  destruct (store_const arg ns) as [ns1|] eqn:Hconst.
  { apply IH; [lia|]. by eapply store_const_valid. }
  destruct rest as [|value rest'].
  { by destruct (store arg "" ns). }
  destruct (looks_like_option value).
  { by destruct (store arg value ns). }
  destruct (store arg value ns) as [[e|ns1]|] eqn:Hstore; try done.
  apply IH; [simpl in Hlen; lia|]. by eapply store_valid.
Qed.

(** Whatever [parse_args] returns has names among the choices. *)
Lemma parse_args_valid argv ns : parse_args argv = inr ns -> valid_names ns.
Proof.
  apply (parse_valid_bounded (length argv)); [done|].
  apply valid_names_defaults.
Qed.

(** A name outside the choices of its option is refused where it stands. *)
Lemma parse_unknown_name option_string value rest ns :
  (option_string = "-algo"%string /\ algoChoices !! value = None)
  \/ (option_string = "-sim"%string /\ value ∉ simChoices)
  \/ (option_string = "-method"%string /\ value ∉ methodChoices) ->
  exists e, parse (option_string :: value :: rest) ns = inl e.
Proof.
  intros Hbad. cbn [parse].
  assert (store_const option_string ns = None) as ->.
  { by destruct Hbad as [[-> _]|[[-> _]|[-> _]]]. }
  assert (String.eqb option_string "-h" || String.eqb option_string "--help"
          = false) as ->.
  { by destruct Hbad as [[-> _]|[[-> _]|[-> _]]]. }
  assert (store option_string value ns
          = Some (inl (InvalidChoice option_string value))) as ->.
  { destruct Hbad as [[-> Hv]|[[-> Hv]|[-> Hv]]]; unfold store, in_choices;
      simpl.
    - rewrite bool_decide_eq_false_2; [done|]. rewrite Hv. by intros [].
    - by rewrite bool_decide_eq_false_2.
    - by rewrite bool_decide_eq_false_2. }
  destruct (looks_like_option value); eauto.
Qed.

(** An integer is stored as it is: no sign is asked of [-k] or [-cv]. *)
Lemma parse_int_unchecked value n rest ns :
  py_int value = Some n -> looks_like_option value = false ->
  parse ("-k"%string :: value :: rest) ns = parse rest (set_k n ns)
  /\ parse ("-cv"%string :: value :: rest) ns = parse rest (set_cv n ns).
Proof.
  intros Hint Hvalue. cbn [parse]. rewrite Hvalue.
  unfold store. simpl. by rewrite Hint.
Qed.

(** ** The ranges of the folds *)

Lemma fold_start_0 n k : (0 < k)%Z -> fold_start n k 0 = 0%Z.
Proof.
  intros Hk. unfold fold_start. pose proof (Z.mod_pos_bound n k Hk). lia.
Qed.

Lemma fold_start_succ n k i :
  (0 < k)%Z ->
  fold_start n k (i + 1)
  = (fold_start n k i + n / k + (if (i <? n mod k)%Z then 1 else 0))%Z.
Proof.
  intros Hk. unfold fold_start. destruct (Z.ltb_spec i (n mod k)); lia.
Qed.

Lemma fold_start_k n k : (0 < k)%Z -> fold_start n k k = n.
Proof.
  intros Hk. unfold fold_start.
  pose proof (Z.mod_pos_bound n k Hk). pose proof (Z.div_mod n k). lia.
Qed.

Lemma fold_start_mono n k i j :
  (0 < k)%Z -> (0 <= n)%Z -> (i <= j)%Z ->
  (fold_start n k i <= fold_start n k j)%Z.
Proof.
  intros Hk Hn Hij. unfold fold_start.
  assert (0 <= n / k)%Z by (apply Z.div_pos; lia).
  assert (i * (n / k) <= j * (n / k))%Z by (apply Z.mul_le_mono_nonneg_r; lia).
  lia.
Qed.

Lemma fold_start_bounds n k i :
  (0 < k)%Z -> (0 <= n)%Z -> (0 <= i < k)%Z ->
  (0 <= fold_start n k i <= fold_start n k (i + 1))%Z
  /\ (fold_start n k (i + 1) <= n)%Z.
Proof.
  intros Hk Hn Hi.
  rewrite <-(fold_start_0 n k Hk) at 1. rewrite <-(fold_start_k n k Hk) at 6.
  repeat split; apply fold_start_mono; lia.
Qed.

(** *** [random.shuffle] permutes and never leaves the list *)

Lemma shuffle_from_Some i x g :
  (i < length x \/ i = 0)%nat ->
  exists x' g', shuffle_from i x g = Some (x', g') /\ x' ≡ₚ x.
Proof using randbelow_lt.
  revert x g. induction i as [|i IH]; intros x g Hi; cbn [shuffle_from].
  { by exists x, g. }
  pose proof (randbelow_lt g (S i + 1) ltac:(lia)) as Hj.
  destruct (randbelow g (S i + 1)) as [j g1]; simpl in Hj.
  destruct (swap_in_range x (S i) j) as [x1 Hx1]; [lia..|].
  rewrite Hx1.
  destruct (IH x1 g1) as (x' & g' & Hs & Hp).
  { rewrite (swap_length _ _ _ _ Hx1). lia. }
  exists x', g'. split; [done|].
  by rewrite Hp, (swap_Permutation _ _ _ _ Hx1).
Qed.

Lemma shuffle_Some x g :
  exists x' g', shuffle x g = Some (x', g') /\ x' ≡ₚ x.
Proof using randbelow_lt. apply shuffle_from_Some. lia. Qed.

Lemma rd_shuffle_Some st s g :
  shuffle (rawRatings st) (rng st) = Some (s, g) ->
  rd_shuffle st = (inr tt, shuffled st s g).
Proof. intros Hs. unfold rd_shuffle. by rewrite Hs. Qed.

(** *** The generator, turn by turn *)

Lemma kFolds_turn_yield st k i :
  (0 <= i < k)%Z ->
  kFolds_turn k i (fold_start (len (rawRatings st)) k i) st
  = (inr (Some (fold_at (rawRatings st) k i),
          Suspended k i (fold_start (len (rawRatings st)) k i)
                        (fold_start (len (rawRatings st)) k (i + 1))), st).
Proof.
  intros Hi. unfold kFolds_turn.
  destruct (Z.ltb_spec i k); [|lia].
  unfold bind, get_seq, floordiv, modulo.
  destruct (decide (k = 0%Z)); [lia|]. unfold ret, fold_at.
  rewrite (fold_start_succ _ _ i) by lia.
  by destruct (i <? len (rawRatings st) `mod` k)%Z; rewrite ?Z.add_0_r.
Qed.

Lemma kFolds_turn_return st k i stop :
  (k <= i)%Z -> kFolds_turn k i stop st = (inr (None, Returned), st).
Proof. intros Hi. unfold kFolds_turn. by destruct (Z.ltb_spec i k); [lia|]. Qed.

Lemma py_list_Suspended fuel st k i start :
  (0 <= i < k)%Z -> (Z.to_nat (k - i) <= fuel)%nat ->
  py_list fuel
    (Suspended k i start (fold_start (len (rawRatings st)) k (i + 1))) st
  = (inr (fold_at (rawRatings st) k <$> seqZ (i + 1) (k - (i + 1))), st).
Proof.
  revert i start. induction fuel as [|fuel IH]; intros i start Hi Hfuel; [lia|].
  simpl. unfold bind at 1.
  destruct (decide (i + 1 < k)%Z) as [Hlt|Hge].
  - rewrite kFolds_turn_yield by lia.
    unfold bind. rewrite IH by lia.
    rewrite (seqZ_cons (i + 1) (k - (i + 1))) by lia. simpl. unfold ret.
    replace (Z.succ (i + 1)) with (i + 1 + 1)%Z by lia.
    by replace (Z.pred (k - (i + 1))) with (k - (i + 1 + 1))%Z by lia.
  - rewrite kFolds_turn_return by lia.
    by replace (k - (i + 1))%Z with 0%Z by lia.
Qed.

(** [list(kFolds(seq, k))]: the list is shuffled where it is, then fold
    after fold is cut out of it. *)
Lemma py_list_kFolds fuel st k s g :
  shuffle (rawRatings st) (rng st) = Some (s, g) ->
  (Z.to_nat k < fuel)%nat ->
  py_list fuel (kFolds k) st
  = (inr (fold_at s k <$> seqZ 0 k), shuffled st s g).
Proof.
  intros Hs Hfuel. destruct fuel as [|fuel]; [lia|].
  simpl. unfold bind at 1. unfold bind at 1.
  rewrite (rd_shuffle_Some _ _ _ Hs).
  destruct (decide (0 < k)%Z) as [Hk|Hk].
  - pose proof (kFolds_turn_yield (shuffled st s g) k 0 ltac:(lia)) as Ht.
    simpl in Ht. rewrite fold_start_0 in Ht by done. rewrite Ht.
    unfold bind.
    pose proof (py_list_Suspended fuel (shuffled st s g) k 0 0) as Hl.
    simpl in Hl. rewrite Hl by lia.
    rewrite (seqZ_cons 0 k) by lia. simpl. unfold ret.
    by replace (Z.pred k) with (k - 1)%Z by lia.
  - rewrite kFolds_turn_return by lia.
    unfold ret. by rewrite seqZ_nil by lia.
Qed.

(** *** What the folds are made of *)

Lemma elem_of_folds s k (f : fold_t) :
  f ∈ fold_at s k <$> seqZ 0 k ->
  exists i : Z, (0 <= i < k)%Z /\ f = fold_at s k i.
Proof.
  intros (i & -> & Hi)%list_elem_of_fmap.
  apply elem_of_seqZ in Hi. exists i. split; [lia|done].
Qed.

Lemma lookup_folds s k (i : nat) :
  (i < Z.to_nat k)%nat ->
  (fold_at s k <$> seqZ 0 k) !! i = Some (fold_at s k (Z.of_nat i)).
Proof.
  intros Hi. rewrite list_lookup_fmap, lookup_seqZ_lt by lia.
  by rewrite Z.add_0_l.
Qed.

Lemma fold_at_test_length s k i :
  (0 < k)%Z -> (0 <= i < k)%Z ->
  len (fold_at s k i).2
  = (len s / k + (if (i <? len s mod k)%Z then 1 else 0))%Z.
Proof.
  intros Hk Hi. unfold fold_at. simpl.
  pose proof (fold_start_bounds (len s) k i Hk (len_nonneg s) Hi).
  rewrite py_slice_range_length by lia.
  rewrite fold_start_succ by done. lia.
Qed.

(** From fold [i] on, the test sets laid end to end are the rest of the
    list. *)
Lemma concat_tests_from s k (m : nat) (i : Z) :
  (0 < k)%Z -> (0 <= i <= k)%Z -> m = Z.to_nat (k - i) ->
  concat (snd <$> (fold_at s k <$> seqZ i (k - i)))
  = drop (Z.to_nat (fold_start (len s) k i)) s.
Proof.
  intros Hk. revert i. induction m as [|m IH]; intros i Hi Hm.
  - replace i with k by lia. rewrite seqZ_nil by lia.
    rewrite fold_start_k by done. simpl.
    symmetry. apply drop_ge. unfold len. lia.
  - rewrite seqZ_cons by lia. rewrite !fmap_cons. simpl.
    replace (Z.succ i) with (i + 1)%Z by lia.
    replace (Z.pred (k - i)) with (k - (i + 1))%Z by lia.
    rewrite IH by lia.
    pose proof (fold_start_bounds (len s) k i Hk (len_nonneg s)
                  ltac:(lia)) as (Ha & Hb).
    rewrite py_slice_range by lia.
    set (a := fold_start (len s) k i) in *.
    set (b := fold_start (len s) k (i + 1)) in *.
    replace (Z.to_nat b) with (Z.to_nat a + Z.to_nat (b - a))%nat by lia.
    by rewrite <-drop_drop, take_drop.
Qed.

Lemma concat_tests s k :
  (0 < k)%Z -> concat (snd <$> (fold_at s k <$> seqZ 0 k)) = s.
Proof.
  intros Hk.
  pose proof (concat_tests_from s k (Z.to_nat k) 0 Hk) as Hc.
  rewrite Z.sub_0_r, fold_start_0 in Hc by done. apply Hc; lia.
Qed.

Lemma splits_at_slices s a b :
  (0 <= a <= b)%Z -> (b <= len s)%Z ->
  splits_at s a b
    (py_slice s None (Some a) ++ py_slice s (Some b) None,
     py_slice s (Some a) (Some b)).
Proof.
  intros Ha Hb. unfold splits_at. simpl.
  rewrite py_slice_prefix, py_slice_suffix, py_slice_range by lia.
  unfold len in Hb. repeat split.
  - rewrite length_app, !length_take, !length_drop. lia.
  - intros j Hj. destruct (decide (a <= Z.of_nat j < b)%Z) as [Hin|Hout].
    + rewrite lookup_take_lt, lookup_drop by lia. f_equal. lia.
    + destruct (decide (Z.of_nat j < a)%Z).
      * rewrite lookup_app_l by (rewrite length_take; lia).
        by rewrite lookup_take_lt by lia.
      * rewrite lookup_app_r by (rewrite length_take; lia).
        rewrite lookup_drop, length_take. f_equal. lia.
Qed.


(** ** The folds of [kFolds] *)

(** C1. For a positive [k], [kFolds(ratings, k)] run to its end shuffles the
    list once and yields exactly [k] folds. Their test sets are the
    contiguous ranges [[fold_start i, fold_start (i + 1))] of the shuffled
    list: laid end to end they are the shuffled list, hence a permutation of
    the input; the range of an earlier fold ends where or before a later one
    begins; test set [i] has [len // k + 1] items when [i < len % k] and
    [len // k] items otherwise; any two sizes differ by at most 1. This
    holds for [k <= len] and beyond, where the late folds are empty. *)
Theorem kFolds_partition (st : state) (k : Z) (fuel : nat) :
  (0 < k)%Z -> (Z.to_nat k < fuel)%nat ->
  exists (s : list Raw) (g : G) (folds : list fold_t),
    let n := len (rawRatings st) in
    shuffle (rawRatings st) (rng st) = Some (s, g)
    /\ py_list fuel (kFolds k) st = (inr folds, shuffled st s g)
    /\ length folds = Z.to_nat k
    /\ concat (snd <$> folds) = s
    /\ concat (snd <$> folds) ≡ₚ rawRatings st
    /\ (forall i : nat, (i < Z.to_nat k)%nat ->
          let a := fold_start n k (Z.of_nat i) in
          let b := fold_start n k (Z.of_nat i + 1) in
          (0 <= a <= b)%Z /\ (b <= n)%Z
          /\ snd <$> folds !! i = Some (py_slice s (Some a) (Some b))
          /\ len (py_slice s (Some a) (Some b))
             = (n / k + (if (Z.of_nat i <? n mod k)%Z then 1 else 0))%Z)
    /\ (forall i j : Z, (0 <= i < j)%Z -> (j < k)%Z ->
          (fold_start n k (i + 1) <= fold_start n k j)%Z)
    /\ (forall t1 t2 : list Raw,
          t1 ∈ snd <$> folds -> t2 ∈ snd <$> folds ->
          (len t1 - len t2 <= 1)%Z).
Proof using randbelow_lt.
  intros Hk Hfuel.
  destruct (shuffle_Some (rawRatings st) (rng st)) as (s & g & Hs & Hp).
  assert (len s = len (rawRatings st)) as Hn by (unfold len; by rewrite Hp).
  exists s, g, (fold_at s k <$> seqZ 0 k). cbv zeta. rewrite <-Hn.
  split; [done|]. split; [by apply py_list_kFolds|].
  split; [by rewrite length_fmap, length_seqZ|].
  split; [by apply concat_tests|].
  split; [by rewrite concat_tests|].
  split; [|split].
  - intros i Hi.
    pose proof (fold_start_bounds (len s) k (Z.of_nat i) Hk (len_nonneg s)
                  ltac:(lia)) as (Ha & Hb).
    split; [done|]. split; [done|]. split.
    + by rewrite lookup_folds.
    + apply (fold_at_test_length s k (Z.of_nat i)); lia.
  - intros i j Hij Hj. apply fold_start_mono; [done|apply len_nonneg|lia].
  - intros t1 t2 (f1 & -> & Hf1)%list_elem_of_fmap (f2 & -> & Hf2)%list_elem_of_fmap.
    apply elem_of_folds in Hf1 as (i1 & Hi1 & ->).
    apply elem_of_folds in Hf2 as (i2 & Hi2 & ->).
    rewrite !fold_at_test_length by done.
    destruct (i1 <? len s mod k)%Z, (i2 <? len s mod k)%Z; lia.
Qed.

(** C2. Every fold that [kFolds(ratings, k)] yields cuts the shuffled list
    at two indices [a <= b]: the test set is the range [[a, b)], the training
    set is what lies before [a] followed by what lies from [b] on, each index
    of the list goes to exactly one of the two, and the two together are a
    permutation of the input ratings. *)
Theorem kFolds_train_test (st : state) (k : Z) (fuel : nat) :
  (Z.to_nat k < fuel)%nat ->
  exists (s : list Raw) (g : G) (folds : list fold_t),
    shuffle (rawRatings st) (rng st) = Some (s, g)
    /\ py_list fuel (kFolds k) st = (inr folds, shuffled st s g)
    /\ Forall (fun fold : fold_t =>
         exists a b : Z,
           (0 <= a <= b)%Z /\ (b <= len s)%Z
           /\ splits_at s a b fold
           /\ fold.1 ++ fold.2 ≡ₚ rawRatings st) folds.
Proof using randbelow_lt.
  intros Hfuel.
  destruct (shuffle_Some (rawRatings st) (rng st)) as (s & g & Hs & Hp).
  exists s, g, (fold_at s k <$> seqZ 0 k).
  split; [done|]. split; [by apply py_list_kFolds|].
  apply Forall_forall. intros fold (i & Hi & ->)%elem_of_folds.
  assert (0 < k)%Z as Hk by lia.
  pose proof (fold_start_bounds (len s) k i Hk (len_nonneg s) Hi) as (Ha & Hb).
  exists (fold_start (len s) k i), (fold_start (len s) k (i + 1)).
  split; [done|]. split; [done|]. split.
  - by apply splits_at_slices.
  - unfold fold_at. simpl. by rewrite py_slice_split.
Qed.

(** C9. [kFolds] shuffles the caller's list where it is. Creating the
    generator touches nothing ([kFolds k] is a value); the request for the
    first fold leaves the list object holding a permutation of what it held,
    the one [random.shuffle] computes; the requests that follow leave it so,
    and every training and test set yielded is cut out of that shuffled
    list. *)
Theorem kFolds_shuffles_in_place (st : state) (k : Z) :
  exists (s : list Raw) (g : G),
    shuffle (rawRatings st) (rng st) = Some (s, g)
    /\ s ≡ₚ rawRatings st
    /\ (exists r st', next (kFolds k) st = (inr r, st')
          /\ rawRatings st' = s
          /\ r.1 = (if (0 <? k)%Z then Some (fold_at s k 0) else None))
    /\ forall fuel : nat, (Z.to_nat k < fuel)%nat ->
         exists folds st',
           py_list fuel (kFolds k) st = (inr folds, st')
           /\ rawRatings st' = s
           /\ Forall (fun fold : fold_t =>
                exists a b : Z,
                  fold.1 = py_slice s None (Some a) ++ py_slice s (Some b) None
                  /\ fold.2 = py_slice s (Some a) (Some b)) folds.
Proof using randbelow_lt.
  destruct (shuffle_Some (rawRatings st) (rng st)) as (s & g & Hs & Hp).
  exists s, g. split; [done|]. split; [done|]. split.
  - simpl. unfold bind. rewrite (rd_shuffle_Some _ _ _ Hs).
    destruct (Z.ltb_spec 0 k) as [Hk|Hk].
    + pose proof (kFolds_turn_yield (shuffled st s g) k 0 ltac:(lia)) as Ht.
      simpl in Ht. rewrite fold_start_0 in Ht by done. rewrite Ht. eauto.
    + rewrite kFolds_turn_return by lia. eauto.
  - intros fuel Hfuel. exists (fold_at s k <$> seqZ 0 k), (shuffled st s g).
    split; [by apply py_list_kFolds|]. split; [done|].
    apply Forall_forall. intros fold (i & Hi & ->)%elem_of_folds.
    by exists (fold_start (len s) k i), (fold_start (len s) k (i + 1)).
Qed.

(** ** Running the monad *)

Lemma bind_inr {X Y} (m : M X) (f : X -> M Y) st x st' :
  m st = (inr x, st') -> bind m f st = f x st'.
Proof. intros Hm. unfold bind. by rewrite Hm. Qed.

Lemma bind_inl {X Y} (m : M X) (f : X -> M Y) st e st' :
  m st = (inl e, st') -> bind m f st = (inl e, st').
Proof. intros Hm. unfold bind. by rewrite Hm. Qed.

Lemma bind_inr_inv {X Y} (m : M X) (f : X -> M Y) st y st' :
  bind m f st = (inr y, st') ->
  exists x st1, m st = (inr x, st1) /\ f x st1 = (inr y, st').
Proof.
  unfold bind. destruct (m st) as [[e|x] st1]; [done|]. eauto.
Qed.

Lemma bind_assoc {X Y Z} (m : M X) (f : X -> M Y) (g : Y -> M Z) st :
  bind (bind m f) g st = bind m (fun x => bind (f x) g) st.
Proof. unfold bind. by destruct (m st) as [[e|x] st1]. Qed.

Lemma bind_ext {X Y} (m : M X) (f g : X -> M Y) st :
  (forall x st', f x st' = g x st') -> bind m f st = bind m g st.
Proof.
  intros Hfg. unfold bind. destruct (m st) as [[e|x] st1]; [done|]. apply Hfg.
Qed.

Lemma bind_run {X Y} (m m' : M X) (f : X -> M Y) st st' :
  m st = m' st' -> bind m f st = bind m' f st'.
Proof. intros Hm. unfold bind. by rewrite Hm. Qed.

Lemma bind_get_seq {Y} (f : list Raw -> M Y) st :
  bind get_seq f st = f (rawRatings st) st.
Proof. done. Qed.

Lemma bind_ret_l {X Y} (x : X) (f : X -> M Y) st : bind (ret x) f st = f x st.
Proof. done. Qed.

(** What a computation leaves of the list object, and what it adds to the
    trace. *)
Definition keeps_list {X} (m : M X) : Prop :=
  forall st, rawRatings (m st).2 = rawRatings st.
Definition emits {X} (P : event -> Prop) (m : M X) : Prop :=
  forall st, exists evs, trace (m st).2 = trace st ++ evs /\ Forall P evs.

Lemma keeps_list_ret {X} (x : X) : keeps_list (ret x).
Proof. done. Qed.
Lemma keeps_list_raise {X} e : keeps_list (@raise X e).
Proof. done. Qed.
Lemma keeps_list_emit e : keeps_list (emit e).
Proof. done. Qed.
Lemma keeps_list_call {X} (f : W -> (Err + X) * W) : keeps_list (call f).
Proof. intros st. unfold call. by destruct (f (world st)). Qed.
Lemma keeps_list_call_rng {X} (f : G -> W -> (Err + X) * (G * W)) :
  keeps_list (call_rng f).
Proof.
  intros st. unfold call_rng. by destruct (f (rng st) (world st)) as [? []].
Qed.
Lemma keeps_list_clock : keeps_list clock.
Proof. intros st. unfold clock. by destruct (process_time (world st)). Qed.
Lemma keeps_list_bind {X Y} (m : M X) (f : X -> M Y) :
  keeps_list m -> (forall x, keeps_list (f x)) -> keeps_list (bind m f).
Proof.
  intros Hm Hf st. unfold bind. specialize (Hm st).
  destruct (m st) as [[e|x] st1]; [done|]. by rewrite Hf.
Qed.
Lemma keeps_list_when c m : keeps_list m -> keeps_list (when c m).
Proof. by destruct c. Qed.
Lemma keeps_list_getitem {K V} `{Countable K} (d : gmap K V) key :
  keeps_list (getitem d key).
Proof. unfold getitem. by destruct (d !! key). Qed.
Lemma keeps_list_try {X} (body handler : M X) :
  keeps_list body -> keeps_list handler ->
  keeps_list (try_except_KeyError body handler).
Proof.
  intros Hb Hh st. unfold try_except_KeyError. specialize (Hb st).
  destruct (body st) as [[[]|x] st1]; try done. by rewrite Hh.
Qed.

Create HintDb keeps_list discriminated.
#[local] Hint Resolve keeps_list_ret keeps_list_raise keeps_list_emit
  keeps_list_call keeps_list_call_rng keeps_list_clock keeps_list_bind
  keeps_list_when keeps_list_getitem keeps_list_try : keeps_list.

Lemma keeps_list_test_query ns td a q : keeps_list (test_query ns td a q).
Proof.
  destruct q as [[[u0 i0] r0] t]. unfold test_query, inner_ids, predict, print.
  apply keeps_list_bind; [auto with keeps_list|]. intros _.
  apply keeps_list_bind; [auto 10 with keeps_list|].
  intros [[u i]|]; auto 10 with keeps_list.
Qed.

Lemma keeps_list_test_loop ns td qs a : keeps_list (test_loop ns td qs a).
Proof.
  revert a. induction qs as [|q qs IH]; intros a; simpl.
  - apply keeps_list_ret.
  - apply keeps_list_bind; [apply keeps_list_test_query|done].
Qed.

Lemma keeps_list_getRmse ns R train test : keeps_list (getRmse ns R train test).
Proof.
  unfold getRmse, make_TrainingData, new_algo, dumpInfos, computeStats, print.
  repeat first
    [ apply keeps_list_test_loop
    | apply keeps_list_bind; [|intros ?]
    | destruct (new_TrainingData _)
    | solve [auto with keeps_list] ].
Qed.

Lemma keeps_list_announce n : keeps_list (announce n).
Proof. unfold announce, print. auto with keeps_list. Qed.

(** Two continuations that agree wherever the list object is as before. *)
Lemma bind_ext_keeps_list {X Y} (m : M X) (f g : X -> M Y) st :
  keeps_list m ->
  (forall x st', rawRatings st' = rawRatings st -> f x st' = g x st') ->
  bind m f st = bind m g st.
Proof.
  intros Hm Hfg. unfold bind. specialize (Hm st).
  destruct (m st) as [[e|x] st1]; [done|]. by apply Hfg.
Qed.

(** ** The loop over the folds *)

(** Once the generator is suspended after fold [i], the rest of the loop is
    the evaluation of the folds that remain: the body leaves the list object
    alone. *)
Lemma for_enumerate_Suspended ns R s k fuel :
  forall (i start : Z) (rmses : list F) (st : state),
    rawRatings st = s ->
    (0 <= i < k)%Z -> (Z.to_nat (k - i) <= fuel)%nat ->
    for_enumerate fuel
      (Suspended k i start (fold_start (len s) k (i + 1))) (i + 1)
      (fold_body ns R) rmses st
    = bind (evaluate_folds ns R (i + 1)
              (fold_at s k <$> seqZ (i + 1) (k - (i + 1))))
        (fun rs => ret (rmses ++ rs)) st.
Proof.
  induction fuel as [|fuel IH]; intros i start rmses st Hs Hi Hfuel; [lia|].
  cbn [for_enumerate next].
  destruct (decide (i + 1 < k)%Z) as [Hlt|Hge].
  - pose proof (kFolds_turn_yield st k (i + 1) ltac:(lia)) as Ht.
    rewrite Hs in Ht. rewrite (bind_inr _ _ _ _ _ Ht).
    rewrite (seqZ_cons (i + 1) (k - (i + 1))) by lia.
    replace (Z.succ (i + 1)) with (i + 1 + 1)%Z by lia.
    replace (Z.pred (k - (i + 1))) with (k - (i + 1 + 1))%Z by lia.
    rewrite fmap_cons. cbn [evaluate_folds].
    destruct (fold_at s k (i + 1)) as [trainSet testSet].
    change (fold_body ns R ?n (trainSet, testSet) rmses)
      with (bind (announce n) (fun _ =>
              bind (getRmse ns R trainSet testSet) (fun r =>
                ret (rmses ++ [r])))).
    cbn [fst snd]. rewrite !bind_assoc.
    apply bind_ext_keeps_list; [apply keeps_list_announce|].
    intros _ st1 Hst1. rewrite !bind_assoc.
    apply bind_ext_keeps_list; [apply keeps_list_getRmse|].
    intros r st2 Hst2. rewrite bind_ret_l.
    rewrite IH by (first [congruence | lia]).
    rewrite bind_assoc. unfold bind.
    destruct (evaluate_folds _ _ _ _ st2) as [[e|rs] st3]; [done|].
    unfold ret. by rewrite <-(assoc_L (++)).
  - rewrite (bind_inr _ _ st (None, Returned) st)
      by (apply kFolds_turn_return; lia).
    rewrite seqZ_nil by lia. simpl. unfold bind, ret.
    by rewrite (right_id_L [] (++)).
Qed.

(** The whole loop of line 204, from the creation of the generator. *)
Lemma for_enumerate_kFolds ns R k rmses st s g :
  shuffle (rawRatings st) (rng st) = Some (s, g) ->
  for_enumerate (S (Z.to_nat k)) (kFolds k) 0 (fold_body ns R) rmses st
  = bind (evaluate_folds ns R 0 (folds_of s k))
      (fun rs => ret (rmses ++ rs)) (shuffled st s g).
Proof.
  intros Hs. cbn [for_enumerate next kFolds]. rewrite bind_assoc.
  rewrite (bind_inr _ _ _ _ _ (rd_shuffle_Some _ _ _ Hs)).
  unfold folds_of. destruct (decide (0 < k)%Z) as [Hk|Hk].
  - pose proof (kFolds_turn_yield (shuffled st s g) k 0 ltac:(lia)) as Ht.
    cbn [shuffled rawRatings] in Ht. rewrite fold_start_0 in Ht by done.
    rewrite (bind_inr _ _ _ _ _ Ht).
    rewrite (seqZ_cons 0 k) by lia.
    replace (Z.succ 0) with (0 + 1)%Z by lia.
    replace (Z.pred k) with (k - (0 + 1))%Z by lia.
    rewrite fmap_cons. cbn [evaluate_folds].
    destruct (fold_at s k 0) as [trainSet testSet].
    change (fold_body ns R ?n (trainSet, testSet) rmses)
      with (bind (announce n) (fun _ =>
              bind (getRmse ns R trainSet testSet) (fun r =>
                ret (rmses ++ [r])))).
    cbn [fst snd]. rewrite !bind_assoc.
    apply bind_ext_keeps_list; [apply keeps_list_announce|].
    intros _ st1 Hst1. rewrite !bind_assoc.
    apply bind_ext_keeps_list; [apply keeps_list_getRmse|].
    intros r st2 Hst2. rewrite bind_ret_l. cbn [shuffled rawRatings] in Hst1.
    rewrite (for_enumerate_Suspended ns R s k) by (first [congruence | lia]).
    rewrite bind_assoc. unfold bind.
    destruct (evaluate_folds _ _ _ _ st2) as [[e|rs] st3]; [done|].
    unfold ret. by rewrite <-(assoc_L (++)).
  - rewrite (bind_inr _ _ _ (None, Returned) (shuffled st s g))
      by (apply kFolds_turn_return; lia).
    rewrite seqZ_nil by lia. simpl. unfold bind, ret.
    by rewrite (right_id_L [] (++)).
Qed.

(** ** The Id Index *)

Lemma index_id_lookup_ne index raw x :
  raw ≠ x -> index_id index raw !! x = index !! x.
Proof.
  intros Hne. unfold index_id. destruct (index !! raw); [done|].
  by rewrite lookup_insert_ne.
Qed.

Lemma foldl_index_id_unseen raws : forall index x,
  x ∉ raws -> index !! x = None -> foldl index_id index raws !! x = None.
Proof.
  induction raws as [|raw raws IH]; intros index x Hx Hnone; [done|].
  apply not_elem_of_cons in Hx as [Hne Hx]. simpl.
  apply IH; [done|]. by rewrite index_id_lookup_ne.
Qed.

(** A raw id that was never seen has no inner id. *)
Lemma id_index_unseen raws x : x ∉ raws -> id_index raws !! x = None.
Proof. intros Hx. by apply foldl_index_id_unseen. Qed.

Lemma foldl_index_id_kept raws : forall index x,
  is_Some (index !! x) -> is_Some (foldl index_id index raws !! x).
Proof.
  induction raws as [|raw raws IH]; intros index x Hx; [done|].
  simpl. apply IH. unfold index_id.
  destruct (index !! raw) eqn:Hraw; [done|].
  destruct (decide (raw = x)) as [->|Hne].
  - rewrite lookup_insert_eq. eauto.
  - by rewrite lookup_insert_ne.
Qed.

(** A raw id that was seen has one. *)
Lemma id_index_seen raws x : x ∈ raws -> is_Some (id_index raws !! x).
Proof.
  unfold id_index. generalize (∅ : gmap RawId nat).
  induction raws as [|raw raws IH]; intros index Hx; [by apply elem_of_nil in Hx|].
  simpl. apply elem_of_cons in Hx as [->|Hx]; [|by apply IH].
  apply foldl_index_id_kept. unfold index_id.
  destruct (index !! raw) eqn:Hraw; [by rewrite Hraw|].
  rewrite lookup_insert_eq. eauto.
Qed.

(** ** The test loop of [getRmse] *)

Lemma logged_nil st : logged st [] = st.
Proof. destruct st. unfold logged. simpl. by rewrite (right_id_L [] (++)). Qed.

Lemma logged_logged st evs1 evs2 :
  logged (logged st evs1) evs2 = logged st (evs1 ++ evs2).
Proof. unfold logged. simpl. by rewrite (assoc_L (++)). Qed.

Lemma emit_logged e st : emit e st = (inr tt, logged st [e]).
Proof. done. Qed.

Lemma inner_ids_known ns td u0 i0 u i st :
  rawToInnerIdUsers td !! u0 = Some u ->
  rawToInnerIdItems td !! i0 = Some i ->
  inner_ids ns td u0 i0 st = (inr (Some (u, i)), st).
Proof.
  intros Hu Hi. unfold inner_ids, try_except_KeyError, bind, getitem.
  by rewrite Hu, Hi.
Qed.

Lemma inner_ids_unknown ns td u0 i0 st :
  rawToInnerIdUsers td !! u0 = None \/ rawToInnerIdItems td !! i0 = None ->
  inner_ids ns td u0 i0 st
  = (inr None,
     logged st
       (if args.indivOutput ns
        then [Print (Line "user or item wasn't used for training. Skipping")]
        else [])).
Proof.
  intros Hui. unfold inner_ids, try_except_KeyError, bind, getitem.
  assert (forall st',
    (when (args.indivOutput ns)
       (print (Line "user or item wasn't used for training. Skipping")) st')
    = (inr tt, logged st'
         (if args.indivOutput ns
          then [Print (Line "user or item wasn't used for training. Skipping")]
          else []))) as Hwhen.
  { intros st'. destruct (args.indivOutput ns); simpl; [done|].
    by rewrite logged_nil. }
  destruct (rawToInnerIdUsers td !! u0) as [u|] eqn:Hu.
  - destruct Hui as [?|Hi]; [done|]. rewrite Hi. simpl. by rewrite Hwhen.
  - simpl. by rewrite Hwhen.
Qed.

Lemma test_loop_app ns td qs1 qs2 a st :
  test_loop ns td (qs1 ++ qs2) a st
  = bind (test_loop ns td qs1 a) (fun a' => test_loop ns td qs2 a') st.
Proof.
  revert a st. induction qs1 as [|q qs1 IH]; intros a st; [done|].
  simpl. rewrite bind_assoc. apply bind_ext. intros a1 st1. apply IH.
Qed.

(** A test rating with an id that has no inner id: the body of the loop
    prints what [--indivOutput] asks for and does nothing else. *)
Lemma test_query_unknown ns td a q st :
  rawToInnerIdUsers td !! rawUser q = None
  \/ rawToInnerIdItems td !! rawItem q = None ->
  test_query ns td a q st = (inr a, logged st (skip_output ns q)).
Proof.
  intros Hq. destruct q as [[[u0 i0] r0] t]. unfold test_query, skip_output.
  unfold rawUser, rawItem in *. simpl in *.
  unfold bind at 1. unfold when, print.
  destruct (args.indivOutput ns) eqn:Hout.
  - rewrite emit_logged. unfold bind.
    rewrite inner_ids_unknown by done. rewrite Hout.
    by rewrite logged_logged.
  - unfold ret at 1. unfold bind.
    rewrite inner_ids_unknown by done. rewrite Hout.
    by rewrite logged_nil.
Qed.

(** C3. A test rating whose raw user id or raw item id does not occur in the
    training ratings of the fold is skipped: the body of the loop returns
    normally with the algorithm instance as it was (no Prediction Record is
    added), the trace gains no [Predict] event (only the two lines that
    [--indivOutput] prints), and the loop goes on with the ratings that
    follow. *)
Theorem unknown_identifier_skipped (ns : Namespace) (rs : list rating_t)
    (td : TrainingData) (before after : list rating_t) (q : rating_t)
    (a : Algo) (st : state) :
  new_TrainingData rs = inr td ->
  rawUser q ∉ rawUser <$> rs \/ rawItem q ∉ rawItem <$> rs ->
  test_query ns td a q st = (inr a, logged st (skip_output ns q))
  /\ (forall u i r, Predict u i r ∉ skip_output ns q)
  /\ test_loop ns td (before ++ q :: after) a st
     = bind (test_loop ns td before a)
         (fun a' st' => test_loop ns td after a' (logged st' (skip_output ns q)))
         st.
Proof.
  intros Htd Hq.
  assert (rawToInnerIdUsers td !! rawUser q = None
          \/ rawToInnerIdItems td !! rawItem q = None) as Hnone.
  { unfold new_TrainingData in Htd. destruct rs; [done|].
    injection Htd as <-. simpl.
    destruct Hq as [Hu|Hi]; [left|right]; by apply id_index_unseen. }
  split; [by apply test_query_unknown|]. split.
  - intros u i r. unfold skip_output.
    destruct (args.indivOutput ns); [|apply not_elem_of_nil].
    intros Hin. repeat (apply elem_of_cons in Hin as [Hin|Hin]; [done|]).
    by apply elem_of_nil in Hin.
  - rewrite test_loop_app. apply bind_ext. intros a1 st1.
    simpl. unfold bind. by rewrite test_query_unknown.
Qed.

(** ** A run of [getRmse], step by step *)

Tactic Notation "inv_bind" hyp(H) "as" simple_intropattern(x) ident(st) ident(H1) :=
  apply bind_inr_inv in H as (x & st & H1 & H).

Lemma ret_inr_inv {X} (x y : X) st st' :
  ret x st = (inr y, st') -> x = y /\ st = st'.
Proof. by intros [= -> ->]. Qed.

Lemma emit_inv e st (u : unit) st' :
  emit e st = (inr u, st') -> st' = logged st [e].
Proof. by intros [= <-]. Qed.

Lemma call_trace {X} (f : W -> (Err + X) * W) st r st' :
  call f st = (r, st') -> trace st' = trace st.
Proof. unfold call. destruct (f (world st)). by intros [= _ <-]. Qed.

Lemma call_rng_trace {X} (f : G -> W -> (Err + X) * (G * W)) st r st' :
  call_rng f st = (r, st') -> trace st' = trace st.
Proof.
  unfold call_rng. destruct (f (rng st) (world st)) as [? []].
  by intros [= _ <-].
Qed.

Lemma predict_inv a u i r0 out st a' st' :
  predict a u i r0 out st = (inr a', st') ->
  exists est, preds a' = preds a ++ [(u, i, r0, est)].
Proof.
  unfold predict. intros Hp.
  inv_bind Hp as [] st1 He. inv_bind Hp as r st2 Hr.
  apply ret_inr_inv in Hp as [<- _]. simpl. eauto.
Qed.

Lemma known_queries_cons td q qs :
  known_queries td (q :: qs) = known_queries td [q] ++ known_queries td qs.
Proof.
  unfold known_queries. simpl.
  by destruct (rawToInnerIdUsers td !! rawUser q),
              (rawToInnerIdItems td !! rawItem q).
Qed.

Lemma test_query_preds ns td a q st a' st' :
  test_query ns td a q st = (inr a', st') ->
  query_of <$> preds a' = (query_of <$> preds a) ++ known_queries td [q].
Proof.
  destruct (rawToInnerIdUsers td !! rawUser q) as [u|] eqn:Hu;
    [destruct (rawToInnerIdItems td !! rawItem q) as [i|] eqn:Hi|].
  - destruct q as [[[u0 i0] r0] t]. unfold rawUser, rawItem in *. simpl in *.
    unfold known_queries, rawUser, rawItem. simpl. rewrite Hu, Hi.
    unfold test_query. intros Hq.
    inv_bind Hq as [] st1 Hprint. inv_bind Hq as ids st2 Hids.
    rewrite (inner_ids_known _ _ _ _ u i) in Hids by done.
    injection Hids as <- <-.
    inv_bind Hq as a1 st3 Hpredict. inv_bind Hq as [] st4 Hprint'.
    apply ret_inr_inv in Hq as [<- _].
    apply predict_inv in Hpredict as [est ->].
    by rewrite fmap_app.
  - rewrite test_query_unknown by auto. intros [= <- _].
    unfold known_queries. simpl. rewrite Hu, Hi.
    by rewrite (right_id_L [] (++)).
  - rewrite test_query_unknown by auto. intros [= <- _].
    unfold known_queries. simpl. rewrite Hu.
    by rewrite (right_id_L [] (++)).
Qed.

(** After the loop [preds] holds, besides what it held, one record for each
    test rating whose ids are known, in the order of the test ratings. *)
Lemma test_loop_preds ns td qs : forall a st a' st',
  test_loop ns td qs a st = (inr a', st') ->
  query_of <$> preds a' = (query_of <$> preds a) ++ known_queries td qs.
Proof.
  induction qs as [|q qs IH]; intros a st a' st' Hl.
  - apply ret_inr_inv in Hl as [<- _].
    unfold known_queries. simpl. by rewrite (right_id_L [] (++)).
  - simpl in Hl. inv_bind Hl as a1 st1 Hq.
    rewrite (IH _ _ _ _ Hl), (test_query_preds _ _ _ _ _ _ _ Hq).
    by rewrite (known_queries_cons td q qs), (assoc_L (++)).
Qed.

(** A run of [getRmse] that returns, step by step. *)
Lemma getRmse_inv ns R train test st v st' :
  getRmse ns R train test st = (inr v, st') ->
  exists (td : TrainingData) (a : Algo) (st1 st2 : state),
    new_TrainingData (R train) = inr td
    /\ query_of <$> preds a = known_queries td (R test)
    /\ is_Some (infos a !! "trainingTime"%string)
    /\ is_Some (infos a !! "testingTime"%string)
    /\ dumpInfos a st1 = (inr tt, st2)
    /\ computeStats (preds a)
         (logged st2 [Print (Line "--------------------");
                      Print (Line "Results:")]) = (inr v, st').
Proof.
  unfold getRmse. intros Hg.
  inv_bind Hg as td st1 Hmake.
  assert (new_TrainingData (R train) = inr td) as Htd.
  { unfold make_TrainingData in Hmake. inv_bind Hmake as [] st0 He.
    destruct (new_TrainingData (R train)); [done|].
    by apply ret_inr_inv in Hmake as [<- _]. }
  inv_bind Hg as t0 st2 Ht0. inv_bind Hg as t1 st3 Ht1.
  inv_bind Hg as c st4 Hc. inv_bind Hg as a0 st5 Hnew.
  assert (preds a0 = []) as Ha0.
  { unfold new_algo in Hnew. inv_bind Hnew as [] st0 He.
    inv_bind Hnew as r st0' Hr. by apply ret_inr_inv in Hnew as [<- _]. }
  inv_bind Hg as [] st6 Hprint. inv_bind Hg as t2 st7 Ht2.
  inv_bind Hg as a1 st8 Hloop. inv_bind Hg as t3 st9 Ht3.
  inv_bind Hg as [] st10 Hwhen.
  match type of Hg with
  | bind (dumpInfos ?a') _ _ = _ => set (a := a') in *
  end.
  inv_bind Hg as [] st11 Hdump. inv_bind Hg as [] st12 Hp1.
  inv_bind Hg as [] st13 Hp2.
  exists td, a, st10, st11. split; [done|]. split.
  { subst a. simpl. by rewrite (test_loop_preds _ _ _ _ _ _ _ Hloop), Ha0. }
  split; [|split].
  { subst a. simpl. rewrite lookup_insert_ne by done.
    rewrite lookup_insert_eq. eauto. }
  { subst a. simpl. rewrite lookup_insert_eq. eauto. }
  split; [done|].
  apply emit_inv in Hp1 as ->. apply emit_inv in Hp2 as ->.
  by rewrite logged_logged in Hg.
Qed.

Lemma dumpInfos_inv a st st' :
  dumpInfos a st = (inr tt, st') ->
  trace st' = trace st ++ [DumpInfos (infos a) (preds a)].
Proof.
  unfold dumpInfos. intros Hd. inv_bind Hd as [] st1 He.
  apply emit_inv in He as ->. by apply call_trace in Hd.
Qed.

Lemma computeStats_inv ps st v st' :
  computeStats ps st = (inr v, st') ->
  trace st' = trace st ++ [ComputeStats ps]
  /\ exists w w', stats_computeStats ps w = (inr v, w').
Proof.
  unfold computeStats. intros Hc. inv_bind Hc as [] st1 He.
  apply emit_inv in He as ->. split; [by apply call_trace in Hc|].
  unfold call in Hc. simpl in Hc.
  destruct (stats_computeStats ps (world st)) as [[e|v'] w'] eqn:Hs; [done|].
  injection Hc as <- _. eauto.
Qed.

(** ** [main] in cross-validation mode *)


Lemma main_cross_validation argv ns st :
  parse_args argv = inr ns ->
  truthy (args.trainFile ns) && truthy (args.testFile ns) = false ->
  main argv st = cross_validation_spec ns st.
Proof using randbelow_lt.
  intros Hparse Hmode. unfold main, cross_validation_spec, cross_validate.
  rewrite Hparse, Hmode.
  apply bind_ext. intros _ st1. apply bind_ext. intros _ st2.
  apply bind_ext. intros _ st3. rewrite bind_assoc.
  apply bind_ext. intros [l R] st4. cbn [fst snd]. rewrite bind_assoc.
  apply bind_ext. intros _ st5.
  destruct (shuffle_Some (rawRatings st5) (rng st5)) as (s & g & Hs & _).
  rewrite (bind_inr _ _ _ _ _ (rd_shuffle_Some _ _ _ Hs)).
  rewrite (bind_run _ _ _ _ _ (for_enumerate_kFolds ns R _ [] _ _ _ Hs)).
  rewrite bind_get_seq, bind_assoc. cbn [shuffled rawRatings].
  apply bind_ext. intros rs st6. by rewrite bind_ret_l.
Qed.


(** ** Reproducible folds, no second try *)

Lemma rd_seed_int a st :
  rd_seed (Some a) st
  = (inr tt, {| rawRatings := rawRatings st; rng := seed_int a;
                world := world st; trace := trace st ++ [Seed (Some a)] |}).
Proof. done. Qed.

(** The first fold that fails ends the evaluation, with its exception and
    in the state in which it failed. *)
Lemma evaluate_folds_failure ns R folds1 : forall n fold folds2 st rs st1 e st2,
  evaluate_folds ns R n folds1 st = (inr rs, st1) ->
  bind (announce (n + len folds1))
    (fun _ => getRmse ns R fold.1 fold.2) st1 = (inl e, st2) ->
  evaluate_folds ns R n (folds1 ++ fold :: folds2) st = (inl e, st2).
Proof.
  induction folds1 as [|fold1 folds1 IH];
    intros n fold folds2 st rs st1 e st2 H1 Hfail.
  - apply ret_inr_inv in H1 as [_ <-]. simpl.
    replace (n + len [])%Z with n in Hfail by (unfold len; simpl; lia).
    rewrite <-bind_assoc. by rewrite (bind_inl _ _ _ _ _ Hfail).
  - simpl in H1. inv_bind H1 as [] sta Ha. inv_bind H1 as r stb Hr.
    inv_bind H1 as rs' stc Hrs. apply ret_inr_inv in H1 as [_ <-].
    simpl. rewrite (bind_inr _ _ _ _ _ Ha), (bind_inr _ _ _ _ _ Hr).
    apply bind_inl. eapply IH; [done|].
    replace (n + 1 + len folds1)%Z with (n + len (fold1 :: folds1))%Z; [done|].
    unfold len. simpl. lia.
Qed.

(** [main] has no handler: an exception of the evaluation is its outcome. *)
Lemma main_propagates argv ns st e st' :
  parse_args argv = inr ns ->
  main_evaluation ns st = (inl e, st') -> main argv st = (inl e, st').
Proof.
  intros Hparse Hfail. unfold main. rewrite Hparse.
  transitivity
    (bind (main_evaluation ns)
       (fun rmses => bind (print (Args ns)) (fun _ =>
          bind (print (MeanRmse (np_mean rmses))) (fun _ =>
            ret (np_mean rmses)))) st).
  - unfold main_evaluation.
    do 3 (rewrite bind_assoc; apply bind_ext; intros ? ?). done.
  - by apply bind_inl.
Qed.

(** C7. Two runs that start from the same rating list and from generators
    in the same state, as [random.seed] leaves them for the same integer,
    get the same folds from [kFolds], whatever else differs between the runs
    and whatever the evaluation of a fold does to the generator before the
    next fold is requested. The loop of the driver calls [getRmse] once for
    each fold in turn; the first exception [getRmse] raises ends the loop
    and is its outcome, and an exception of the evaluation is the outcome of
    [main]. *)
Theorem kFolds_deterministic (ns : Namespace) (R : Reader) (k seed : Z)
    (rmses : list F) (st1 st2 : state) :
  rawRatings st1 = rawRatings st2 ->
  rng st1 = seed_int seed -> rng st2 = seed_int seed ->
  (forall st, rng (rd_seed (Some seed) st).2 = seed_int seed)
  /\ exists (s : list Raw) (g : G),
       shuffle (rawRatings st1) (seed_int seed) = Some (s, g)
       /\ (forall fuel : nat, (Z.to_nat k < fuel)%nat ->
             py_list fuel (kFolds k) st1 = (inr (folds_of s k), shuffled st1 s g)
             /\ py_list fuel (kFolds k) st2
                = (inr (folds_of s k), shuffled st2 s g))
       /\ (forall st, st = st1 \/ st = st2 ->
             for_enumerate (S (Z.to_nat k)) (kFolds k) 0 (fold_body ns R) rmses st
             = bind (evaluate_folds ns R 0 (folds_of s k))
                 (fun rs => ret (rmses ++ rs)) (shuffled st s g))
       /\ (forall st folds1 fold folds2 rs st' e st'',
             st = st1 \/ st = st2 ->
             folds_of s k = folds1 ++ fold :: folds2 ->
             evaluate_folds ns R 0 folds1 (shuffled st s g) = (inr rs, st') ->
             bind (announce (len folds1))
               (fun _ => getRmse ns R fold.1 fold.2) st' = (inl e, st'') ->
             for_enumerate (S (Z.to_nat k)) (kFolds k) 0 (fold_body ns R) rmses st
             = (inl e, st''))
       /\ (forall argv st e st',
             parse_args argv = inr ns ->
             main_evaluation ns st = (inl e, st') ->
             main argv st = (inl e, st')).
Proof using randbelow_lt.
  intros Hl Hg1 Hg2. split; [done|].
  destruct (shuffle_Some (rawRatings st1) (seed_int seed)) as (s & g & Hs & _).
  exists s, g. split; [done|].
  assert (forall st, st = st1 \/ st = st2 ->
            shuffle (rawRatings st) (rng st) = Some (s, g)) as Hshuffle.
  { intros st [->| ->]; congruence. }
  split; [|split; [|split]].
  - intros fuel Hfuel. split; apply py_list_kFolds; auto.
  - intros st Hst. apply for_enumerate_kFolds; auto.
  - intros st folds1 fold folds2 rs st' e st'' Hst Hfolds H1 Hfail.
    rewrite (for_enumerate_kFolds _ _ _ _ _ _ _ (Hshuffle st Hst)).
    apply bind_inl. rewrite Hfolds.
    eapply evaluate_folds_failure; [done|]. by rewrite Z.add_0_l.
  - intros argv st e st'. apply main_propagates.
Qed.

(** C10. For [k <= 0], [kFolds(seq, k)] run to its end yields no fold and
    raises nothing (the list is shuffled all the same). A run of [main] in
    cross-validation mode with such a fold count loads and shuffles the
    ratings, calls [getRmse] for no fold and reports [numpy.mean] of the
    empty list. *)
Theorem kFolds_nonpositive (k : Z) (fuel : nat) (st : state)
    (argv : list string) (ns : Namespace) :
  (k <= 0)%Z -> (0 < fuel)%nat ->
  (exists (s : list Raw) (g : G),
     shuffle (rawRatings st) (rng st) = Some (s, g)
     /\ py_list fuel (kFolds k) st = (inr [], shuffled st s g))
  /\ (parse_args argv = inr ns ->
      (args.cv ns <= 0)%Z ->
      truthy (args.trainFile ns) && truthy (args.testFile ns) = false ->
      main argv st
      = bind (rd_seed (args.seed ns)) (fun _ =>
        bind (emit MakeDirs) (fun _ =>
        bind (call ensure_datasets_dir) (fun _ =>
        bind (getRawRatings (args.dataset ns) None) (fun r =>
        bind (bind_rawRatings r.1) (fun _ =>
        bind rd_shuffle (fun _ =>
        bind (print (Args ns)) (fun _ =>
        bind (print (MeanRmse (np_mean []))) (fun _ =>
        ret (np_mean [])))))))))
          st).
Proof using randbelow_lt.
  intros Hk Hfuel. split.
  - destruct (shuffle_Some (rawRatings st) (rng st)) as (s & g & Hs & _).
    exists s, g. split; [done|].
    rewrite (py_list_kFolds fuel st k s g Hs) by lia.
    by rewrite seqZ_nil by lia.
  - intros Hparse Hcv Hmode.
    rewrite (main_cross_validation argv ns st) by done.
    unfold cross_validation_spec.
    do 6 (apply bind_ext; intros ? ?).
    rewrite bind_get_seq. unfold folds_of. by rewrite seqZ_nil by lia.
Qed.

(** ** What reaches the training data *)

Lemma emits_ret {X} P (x : X) : emits P (ret x).
Proof. intros st. exists []. by rewrite (right_id_L [] (++)). Qed.
Lemma emits_raise {X} P e : emits P (@raise X e).
Proof. intros st. exists []. by rewrite (right_id_L [] (++)). Qed.
Lemma emits_emit (P : event -> Prop) e : P e -> emits P (emit e).
Proof. intros He st. exists [e]. split; [done|]. by constructor. Qed.
Lemma emits_call {X} P (f : W -> (Err + X) * W) : emits P (call f).
Proof.
  intros st. exists []. rewrite (right_id_L [] (++)). split; [|done].
  by eapply call_trace, surjective_pairing.
Qed.
Lemma emits_call_rng {X} P (f : G -> W -> (Err + X) * (G * W)) :
  emits P (call_rng f).
Proof.
  intros st. exists []. rewrite (right_id_L [] (++)). split; [|done].
  by eapply call_rng_trace, surjective_pairing.
Qed.
Lemma emits_clock P : emits P clock.
Proof.
  intros st. exists []. rewrite (right_id_L [] (++)). split; [|done].
  unfold clock. by destruct (process_time (world st)).
Qed.
Lemma emits_bind {X Y} P (m : M X) (f : X -> M Y) :
  emits P m ->
  (forall x, (exists st st', m st = (inr x, st')) -> emits P (f x)) ->
  emits P (bind m f).
Proof.
  intros Hm Hf st. destruct (Hm st) as (evs1 & H1 & HP1). unfold bind.
  destruct (m st) as [[e|x] st1] eqn:Hrun; [by exists evs1|].
  destruct (Hf x (ex_intro _ st (ex_intro _ st1 Hrun)) st1)
    as (evs2 & H2 & HP2).
  exists (evs1 ++ evs2). simpl in H1. rewrite H2, H1, (assoc_L (++)).
  split; [done|]. by apply Forall_app.
Qed.
Lemma emits_when P c m : emits P m -> emits P (when c m).
Proof. destruct c; [done|]. intros _. apply emits_ret. Qed.
Lemma emits_getitem {K V} `{Countable K} P (d : gmap K V) key :
  emits P (getitem d key).
Proof. unfold getitem. destruct (d !! key); [apply emits_ret|apply emits_raise]. Qed.
Lemma emits_try {X} P (body handler : M X) :
  emits P body -> emits P handler -> emits P (try_except_KeyError body handler).
Proof.
  intros Hb Hh st. destruct (Hb st) as (evs1 & H1 & HP1).
  unfold try_except_KeyError.
  destruct (body st) as [[[]|x] st1]; try by exists evs1.
  destruct (Hh st1) as (evs2 & H2 & HP2).
  exists (evs1 ++ evs2). simpl in H1. rewrite H2, H1, (assoc_L (++)).
  split; [done|]. by apply Forall_app.
Qed.

(** One rule at a time, for a computation that emits nothing of interest. *)
Ltac emits_step :=
  first
    [ apply emits_ret | apply emits_raise | apply emits_call
    | apply emits_call_rng | apply emits_clock | apply emits_getitem
    | apply emits_when | apply emits_try
    | apply emits_emit; first [exact I | by intros ? ? | solve [auto]]
    | apply emits_bind; [|intros ? _] ].

(** The loop of [getRmse] prints and predicts, and that is all. *)
Lemma emits_test_query P ns td a q :
  (forall o, P (Print o)) -> (forall u i r, P (Predict u i r)) ->
  emits P (test_query ns td a q).
Proof.
  intros Hprint Hpredict.
  destruct q as [[[u0 i0] r0] t]. unfold test_query, inner_ids, predict, print.
  apply emits_bind; [by repeat emits_step|]. intros _ _.
  apply emits_bind; [by repeat emits_step|].
  intros [[u i]|] _; by repeat emits_step.
Qed.

Lemma emits_test_loop P ns td qs :
  (forall o, P (Print o)) -> (forall u i r, P (Predict u i r)) ->
  forall a, emits P (test_loop ns td qs a).
Proof.
  intros Hprint Hpredict.
  induction qs as [|q qs IH]; intros a; simpl; [apply emits_ret|].
  apply emits_bind; [by apply emits_test_query|]. intros a' _. apply IH.
Qed.




(** ** What the reporting layer is given *)

(** Whenever [dumpInfos()] is reached, the two times are in [infos]. *)
Lemma emits_has_times ns R train test :
  emits has_times (getRmse ns R train test).
Proof.
  unfold getRmse, make_TrainingData, new_algo, print.
  apply emits_bind.
  { emits_step; [emits_step|]. destruct (new_TrainingData _); emits_step. }
  intros td _.
  do 6 (apply emits_bind; [by repeat emits_step|intros ? _]).
  apply emits_bind; [apply emits_test_loop; by intros|]. intros a1 _.
  do 2 (apply emits_bind; [by repeat emits_step|intros ? _]).
  apply emits_bind.
  { unfold dumpInfos. apply emits_bind; [|intros; emits_step].
    apply emits_emit. intros inf ps [= <- _]. simpl.
    rewrite lookup_insert_ne by done. rewrite !lookup_insert_eq. eauto. }
  intros _ _. unfold computeStats. by repeat emits_step.
Qed.

(** C8. In every run of [getRmse], whenever [dumpInfos()] is reached the
    [infos] it is given has the keys [trainingTime] and [testingTime]. When
    [getRmse] returns, the last things it did are, in this order:
    [dumpInfos()] on an instance whose [infos] has the two keys and whose
    [preds] holds one Prediction Record for each test rating of the fold
    with known ids, in order; two prints; then [computeStats] on these same
    [preds]. *)
Theorem getRmse_reports (ns : Namespace) (R : Reader)
    (train test : list Raw) :
  emits has_times (getRmse ns R train test)
  /\ forall (st st' : state) (v : F),
       getRmse ns R train test st = (inr v, st') ->
       exists (td : TrainingData) (a : Algo) (before : list event),
         new_TrainingData (R train) = inr td
         /\ trace st' = before ++ [DumpInfos (infos a) (preds a);
                                   Print (Line "--------------------");
                                   Print (Line "Results:");
                                   ComputeStats (preds a)]
         /\ is_Some (infos a !! "trainingTime"%string)
         /\ is_Some (infos a !! "testingTime"%string)
         /\ query_of <$> preds a = known_queries td (R test).
Proof.
  split; [apply emits_has_times|].
  intros st st' v
    (td & a & st1 & st2 & Htd & Hpreds & Htrain & Htest & Hdump & Hstats)
    %getRmse_inv.
  exists td, a, (trace st1). repeat split; try done.
  apply computeStats_inv in Hstats as [-> _]. simpl.
  rewrite (dumpInfos_inv _ _ _ Hdump).
  by rewrite <-!(assoc_L (++)).
Qed.

(** ** What [parse_args] checks *)

(** C4, as the code has it. The names are checked when the command line is
    parsed: a namespace that [parse_args] returns has its algorithm,
    similarity measure, baseline method and dataset among the choices, and a
    name outside the choices of [-algo], [-sim] or [-method] is refused
    where it stands. A command line that is refused ends [main] on the spot:
    nothing is seeded, loaded, shuffled, trained or predicted. The neighbor
    count and the fold count are only converted with [int]: whatever integer
    is given is stored, positive or not. *)
Theorem configuration_names_checked (argv : list string) (st : state) :
  (forall ns, parse_args argv = inr ns -> valid_names ns)
  /\ (forall e, parse_args argv = inl e ->
        main argv st = (inl (SystemExit (exit_status e)), st))
  /\ (forall option_string value rest ns,
        (option_string = "-algo"%string /\ algoChoices !! value = None)
        \/ (option_string = "-sim"%string /\ value ∉ simChoices)
        \/ (option_string = "-method"%string /\ value ∉ methodChoices) ->
        exists e, parse (option_string :: value :: rest) ns = inl e)
  /\ (forall value n rest ns,
        py_int value = Some n -> looks_like_option value = false ->
        parse ("-k"%string :: value :: rest) ns = parse rest (set_k n ns)
        /\ parse ("-cv"%string :: value :: rest) ns
           = parse rest (set_cv n ns)).
Proof.
  split; [|split; [|split]].
  - intros ns. apply parse_args_valid.
  - intros e He. unfold main. by rewrite He.
  - intros option_string value rest ns. apply parse_unknown_name.
  - intros value n rest ns. apply parse_int_unchecked.
Qed.

(** * More of [main.py] *)

(** ** [kFolds] at the edges *)

Lemma fold_start_many n k j :
  (0 < k)%Z -> (0 <= n <= k)%Z -> (0 <= j <= k)%Z ->
  fold_start n k j = Z.min j n.
Proof.
  intros Hk Hn Hj. unfold fold_start.
  destruct (decide (n = k)) as [->|Hne].
  - rewrite Z.div_same, Z.mod_same by lia. lia.
  - rewrite Z.div_small, Z.mod_small by lia. lia.
Qed.

(** With at least as many folds as ratings, fold [i] tests the rating at
    index [i] alone, or nothing once the ratings have run out. *)
Lemma fold_at_many (s : list Raw) k (i : nat) :
  (0 < k)%Z -> (len s <= k)%Z -> (i < Z.to_nat k)%nat ->
  fold_at s k (Z.of_nat i) = (delete i s, option_list (s !! i)).
Proof.
  intros Hk Hlen Hi. unfold fold_at.
  pose proof (len_nonneg s) as Hn.
  rewrite !fold_start_many by lia. unfold len in *.
  rewrite py_slice_prefix, py_slice_suffix, py_slice_range
    by (unfold len; lia).
  destruct (s !! i) as [x|] eqn:Hx.
  - apply lookup_lt_Some in Hx as Hlt.
    replace (Z.to_nat (Z.min (Z.of_nat i) (Z.of_nat (length s)))) with i by lia.
    replace (Z.to_nat (Z.min (Z.of_nat i + 1) (Z.of_nat (length s))))
      with (S i) by lia.
    replace (Z.to_nat (Z.min (Z.of_nat i + 1) (Z.of_nat (length s))
                       - Z.min (Z.of_nat i) (Z.of_nat (length s))))
      with 1%nat by lia.
    rewrite delete_take_drop. f_equal.
    by rewrite (drop_S _ _ _ Hx).
  - apply lookup_ge_None in Hx.
    replace (Z.to_nat (Z.min (Z.of_nat i) (Z.of_nat (length s))))
      with (length s) by lia.
    replace (Z.to_nat (Z.min (Z.of_nat i + 1) (Z.of_nat (length s))))
      with (length s) by lia.
    replace (Z.to_nat (Z.min (Z.of_nat i + 1) (Z.of_nat (length s))
                       - Z.min (Z.of_nat i) (Z.of_nat (length s))))
      with 0%nat by lia.
    rewrite delete_take_drop, (take_ge s i), (take_ge s (length s)), drop_all,
      (drop_ge s (S i)) by lia.
    done.
Qed.

Lemma seqZ_0_seq k : seqZ 0 k = Z.of_nat <$> seq 0 (Z.to_nat k).
Proof.
  unfold seqZ. apply list_fmap_ext. intros _ i _. lia.
Qed.

(** X1. With at least as many folds as ratings ([len(seq) <= k]),
    [kFolds(seq, k)] is leave-one-out: fold [i] has the shuffled list
    without its item [i] as training set and that item alone as test set;
    once the ratings have run out, the folds that remain have the whole list
    as training set and an empty test set. *)
Theorem kFolds_leave_one_out (st : state) (k : Z) (fuel : nat) :
  (0 < k)%Z -> (len (rawRatings st) <= k)%Z -> (Z.to_nat k < fuel)%nat ->
  exists (s : list Raw) (g : G),
    shuffle (rawRatings st) (rng st) = Some (s, g)
    /\ py_list fuel (kFolds k) st
       = (inr ((fun i : nat => (delete i s, option_list (s !! i)))
               <$> seq 0 (Z.to_nat k)),
          shuffled st s g).
Proof using randbelow_lt.
  intros Hk Hlen Hfuel.
  destruct (shuffle_Some (rawRatings st) (rng st)) as (s & g & Hs & Hp).
  exists s, g. split; [done|].
  rewrite (py_list_kFolds fuel st k s g Hs Hfuel). do 2 f_equal.
  rewrite seqZ_0_seq, <-list_fmap_compose.
  apply list_fmap_ext. intros j i Hi%lookup_seq. simpl.
  apply fold_at_many; [done| |lia].
  unfold len in *. by rewrite Hp.
Qed.

(** X2. [kFolds(seq, 1)] yields one fold: its training set is empty and its
    test set is the whole shuffled list. *)
Theorem kFolds_single_fold (st : state) (fuel : nat) :
  (1 < fuel)%nat ->
  exists (s : list Raw) (g : G),
    shuffle (rawRatings st) (rng st) = Some (s, g)
    /\ py_list fuel (kFolds 1) st = (inr [([], s)], shuffled st s g).
Proof using randbelow_lt.
  intros Hfuel.
  destruct (shuffle_Some (rawRatings st) (rng st)) as (s & g & Hs & Hp).
  exists s, g. split; [done|].
  rewrite (py_list_kFolds fuel st 1 s g Hs) by (simpl; lia).
  do 2 f_equal. change (seqZ 0 1) with [0%Z]. simpl. unfold fold_at.
  rewrite (fold_start_0 _ 1), (fold_start_k _ 1) by lia.
  pose proof (len_nonneg s).
  rewrite py_slice_prefix, py_slice_suffix, py_slice_range by lia.
  unfold len. rewrite Z.sub_0_r, Nat2Z.id. simpl.
  change (Z.to_nat 0) with 0%nat.
  by rewrite drop_all, drop_0, take_ge by lia.
Qed.

Lemma concat_train_test (s : list Raw) (folds : list fold_t) :
  Forall (fun fold : fold_t => fold.1 ++ fold.2 ≡ₚ s) folds ->
  concat (fst <$> folds) ++ concat (snd <$> folds)
  ≡ₚ concat (replicate (length folds) s).
Proof.
  induction 1 as [|[train test] folds Hfold _ IH]; [done|].
  simpl in *. rewrite <-IH, <-Hfold.
  rewrite <-!(assoc_L (++)). f_equiv.
  rewrite !(assoc_L (++)). f_equiv; first [apply (comm (++)) | done].
Qed.

(** X3. Over the [k > 0] folds of [kFolds(seq, k)] every rating is tested
    once and trained on [k - 1] times: the training sets laid end to end are
    a permutation of [k - 1] copies of the shuffled list. *)
Theorem kFolds_training_sets (st : state) (k : Z) (fuel : nat) :
  (0 < k)%Z -> (Z.to_nat k < fuel)%nat ->
  exists (s : list Raw) (g : G) (folds : list fold_t),
    shuffle (rawRatings st) (rng st) = Some (s, g)
    /\ py_list fuel (kFolds k) st = (inr folds, shuffled st s g)
    /\ concat (fst <$> folds) ≡ₚ concat (replicate (Z.to_nat k - 1) s).
Proof using randbelow_lt.
  intros Hk Hfuel.
  destruct (shuffle_Some (rawRatings st) (rng st)) as (s & g & Hs & Hp).
  exists s, g, (fold_at s k <$> seqZ 0 k).
  split; [done|]. split; [by apply py_list_kFolds|].
  assert (Forall (fun fold : fold_t => fold.1 ++ fold.2 ≡ₚ s)
            (fold_at s k <$> seqZ 0 k)) as Hall.
  { apply Forall_forall. intros fold (i & Hi & ->)%elem_of_folds.
    pose proof (fold_start_bounds (len s) k i Hk (len_nonneg s) Hi) as (Ha & Hb).
    unfold fold_at. simpl. by apply py_slice_split. }
  apply concat_train_test in Hall.
  rewrite concat_tests, length_fmap, length_seqZ in Hall by done.
  replace (Z.to_nat k) with (S (Z.to_nat k - 1)) in Hall at 1 by lia.
  rewrite replicate_S in Hall. simpl in Hall.
  rewrite (comm (++)) in Hall.
  by apply Permutation_app_inv_l in Hall.
Qed.

Lemma fold_at_nil k i : fold_at [] k i = ([], []).
Proof. unfold fold_at, py_slice. by rewrite !drop_nil, !take_nil. Qed.

(** X4. On an empty list [kFolds(seq, k)] draws no random number, leaves
    the list empty and yields [k] folds (none for [k <= 0]) whose training
    and test sets are all empty; nothing is raised. *)
Theorem kFolds_empty (st : state) (k : Z) (fuel : nat) :
  rawRatings st = [] -> (Z.to_nat k < fuel)%nat ->
  py_list fuel (kFolds k) st
  = (inr (replicate (Z.to_nat k) ([], [])), shuffled st [] (rng st)).
Proof.
  intros Hempty Hfuel.
  assert (shuffle (rawRatings st) (rng st) = Some ([], rng st)) as Hs
    by (by rewrite Hempty).
  rewrite (py_list_kFolds fuel st k [] (rng st) Hs Hfuel).
  do 2 f_equal. rewrite <-(length_seqZ 0 k).
  induction (seqZ 0 k) as [|i l IH]; [done|].
  rewrite fmap_cons, fold_at_nil, IH. done.
Qed.

(** ** [getRmse]: times, empty test sets, failures *)

Lemma clock_inv st t st' :
  clock st = (inr t, st') ->
  t = (process_time (world st)).1
  /\ world st' = (process_time (world st)).2.
Proof.
  unfold clock. destruct (process_time (world st)) as [t0 w].
  by intros [= <- <-].
Qed.

Lemma make_TrainingData_inv rs st td st' :
  make_TrainingData rs st = (inr td, st') ->
  new_TrainingData rs = inr td /\ world st' = world st.
Proof.
  unfold make_TrainingData. intros Hmake. inv_bind Hmake as [] st0 He.
  apply emit_inv in He as ->.
  destruct (new_TrainingData rs); [done|].
  by apply ret_inr_inv in Hmake as [<- <-].
Qed.

(** X5. The [trainingTime] that [getRmse] stores in [infos] and hands to
    [dumpInfos()] is the difference of two readings of the clock taken one
    after the other when [getRmse] starts, before the algorithm is
    constructed: it depends on the clock at entry alone, not on the
    algorithm, the training set or the test set. *)
Theorem trainingTime_before_training (ns : Namespace) (R : Reader)
    (train test : list Raw) (st st' : state) (v : F) :
  getRmse ns R train test st = (inr v, st') ->
  exists (inf : gmap string InfoVal) (ps : list prediction)
         (before : list event),
    trace st' = before ++ [DumpInfos inf ps;
                           Print (Line "--------------------");
                           Print (Line "Results:");
                           ComputeStats ps]
    /\ inf !! "trainingTime"%string
       = Some (info_time
                 (time_sub (process_time (process_time (world st)).2).1
                           (process_time (world st)).1)).
Proof.
  unfold getRmse. intros Hg.
  inv_bind Hg as td st1 Hmake.
  apply make_TrainingData_inv in Hmake as [_ Hw1].
  inv_bind Hg as t0 st2 Ht0. apply clock_inv in Ht0 as [-> Hw2].
  inv_bind Hg as t1 st3 Ht1. apply clock_inv in Ht1 as [-> Hw3].
  rewrite Hw2, !Hw1 in *.
  inv_bind Hg as c st4 Hc. inv_bind Hg as a0 st5 Hnew.
  inv_bind Hg as [] st6 Hprint. inv_bind Hg as t2 st7 Ht2.
  inv_bind Hg as a1 st8 Hloop. inv_bind Hg as t3 st9 Ht3.
  inv_bind Hg as [] st10 Hwhen.
  match type of Hg with
  | bind (dumpInfos ?a') _ _ = _ => set (a := a') in *
  end.
  inv_bind Hg as [] st11 Hdump. inv_bind Hg as [] st12 Hp1.
  inv_bind Hg as [] st13 Hp2.
  apply emit_inv in Hp1 as ->. apply emit_inv in Hp2 as ->.
  apply computeStats_inv in Hg as [Htrace _].
  exists (infos a), (preds a), (trace st10). split.
  - rewrite Htrace. simpl. rewrite (dumpInfos_inv _ _ _ Hdump).
    by rewrite <-!(assoc_L (++)).
  - subst a. simpl. rewrite lookup_insert_ne by done.
    by rewrite lookup_insert_eq.
Qed.

Lemma new_algo_inv c td ib m s k st a st' :
  new_algo c td ib m s k st = (inr a, st') -> preds a = [].
Proof.
  unfold new_algo. intros Hnew. inv_bind Hnew as [] st0 He.
  inv_bind Hnew as r st1 Hr. by apply ret_inr_inv in Hnew as [<- _].
Qed.

(** X6. With no test rating ([ReaderClass(testRawRatings).ratings] is
    empty), a run of [getRmse] never calls [predict], and what it hands to
    [dumpInfos()] and to [computeStats] is the empty list of predictions of
    the new instance. *)
Theorem getRmse_empty_test (ns : Namespace) (R : Reader)
    (train test : list Raw) :
  R test = [] ->
  emits (fun e => (forall u i r, e <> Predict u i r)
                  /\ (forall inf ps, e = DumpInfos inf ps -> ps = [])
                  /\ (forall ps, e = ComputeStats ps -> ps = []))
    (getRmse ns R train test).
Proof.
  intros Hempty. unfold getRmse. rewrite Hempty.
  unfold make_TrainingData, print.
  apply emits_bind.
  { emits_step; [apply emits_emit; by repeat split|].
    destruct (new_TrainingData _); emits_step. }
  intros td _.
  do 3 (apply emits_bind; [by emits_step|intros ? _]).
  apply emits_bind.
  { unfold new_algo.
    apply emits_bind; [apply emits_emit; by repeat split|]. intros _ _.
    by repeat emits_step. }
  intros a0 (st0 & st0' & Ha0%new_algo_inv).
  apply emits_bind; [apply emits_emit; by repeat split|]. intros _ _.
  apply emits_bind; [by emits_step|]. intros t2 _.
  simpl. apply emits_bind; [apply emits_ret|].
  intros a1 (st1 & st1' & [<- _]%ret_inr_inv).
  apply emits_bind; [by emits_step|]. intros t3 _.
  apply emits_bind.
  { apply emits_when, emits_emit. by repeat split. }
  intros _ _. unfold dumpInfos, computeStats, print. simpl. rewrite Ha0.
  repeat (apply emits_bind; [|intros ? _]);
    first [ apply emits_call
          | apply emits_emit; repeat split; intros; by simplify_eq ].
Qed.

Lemma when_print_logged c o st :
  when c (print o) st = (inr tt, logged st (if c then [Print o] else [])).
Proof. destruct c; simpl; [done|]. by rewrite logged_nil. Qed.

(** X7. Only the two id lookups are under [try]: when [predict] raises on a
    test rating whose ids are known, the exception is not caught. It ends
    the loop at that rating as the outcome of the loop, after the
    predictions of the ratings before it and with nothing done for the
    ratings after it. *)
Theorem predict_failure_ends_loop (ns : Namespace) (td : TrainingData)
    (before after : list rating_t) (q : rating_t) (a a1 : Algo)
    (st st1 : state) (u i : nat) (e : Err) (g : G) (w : W) :
  test_loop ns td before a st = (inr a1, st1) ->
  rawToInnerIdUsers td !! rawUser q = Some u ->
  rawToInnerIdItems td !! rawItem q = Some i ->
  estimate (model a1) (infos a1) u i q.1.2 (args.indivOutput ns)
    (rng st1) (world st1) = (inl e, (g, w)) ->
  test_loop ns td (before ++ q :: after) a st
  = (inl (Raised e),
     {| rawRatings := rawRatings st1; rng := g; world := w;
        trace := trace st1
                 ++ (if args.indivOutput ns
                     then [Print (Query (rawUser q) (rawItem q) q.1.2)]
                     else [])
                 ++ [Predict u i q.1.2] |}).
Proof.
  intros Hbefore Hu Hi Hfail. rewrite test_loop_app.
  rewrite (bind_inr _ _ _ _ _ Hbefore). simpl.
  apply bind_inl.
  destruct q as [[[u0 i0] r0] t]. unfold rawUser, rawItem in *. simpl in *.
  unfold test_query. unfold bind at 1. rewrite when_print_logged.
  unfold bind at 1. rewrite (inner_ids_known _ _ _ _ u i) by done.
  apply bind_inl. unfold predict. unfold bind at 1. rewrite emit_logged.
  apply bind_inl. unfold call_rng. simpl. rewrite Hfail. simpl.
  by rewrite <-(assoc_L (++)).
Qed.

Lemma test_query_options ns1 ns2 td a q st :
  args.indivOutput ns1 = args.indivOutput ns2 ->
  test_query ns1 td a q st = test_query ns2 td a q st.
Proof.
  intros Hout. destruct q as [[[u0 i0] r0] t].
  unfold test_query, inner_ids. by rewrite Hout.
Qed.

Lemma test_loop_options ns1 ns2 td qs : forall a st,
  args.indivOutput ns1 = args.indivOutput ns2 ->
  test_loop ns1 td qs a st = test_loop ns2 td qs a st.
Proof.
  induction qs as [|q qs IH]; intros a st Hout; [done|]. simpl.
  rewrite (bind_run _ _ _ _ _ (test_query_options ns1 ns2 td a q st Hout)).
  apply bind_ext. intros a1 st1. by apply IH.
Qed.

Lemma getRmse_options ns1 ns2 R train test st :
  same_algorithm_options ns1 ns2 ->
  getRmse ns1 R train test st = getRmse ns2 R train test st.
Proof.
  intros (Halgo & Hitem & Hmethod & Hsim & Hk & Hout). unfold getRmse.
  rewrite Halgo, Hitem, Hmethod, Hsim, Hk, Hout.
  do 7 (apply bind_ext; intros ? ?).
  rewrite (bind_run _ _ _ _ _ (test_loop_options ns1 ns2 _ _ _ _ Hout)).
  done.
Qed.

(** X8. [getRmse] reads six options of the command line and no other:
    the algorithm, [--itemBased], the baseline method, the similarity
    measure, the neighbor count and [--indivOutput]. Two namespaces that
    agree on these give the same run of [getRmse], whatever their fold
    count, seed, dataset, files and [--withDump]. *)
Theorem getRmse_reads_six_options (ns1 ns2 : Namespace) (R : Reader)
    (train test : list Raw) (st : state) :
  same_algorithm_options ns1 ns2 ->
  getRmse ns1 R train test st = getRmse ns2 R train test st.
Proof. apply getRmse_options. Qed.

(** ** [main]: what the options change, and what they do not *)

Lemma main_as_evaluation argv ns st :
  parse_args argv = inr ns ->
  main argv st
  = bind (main_evaluation ns)
      (fun rmses => bind (print (Args ns)) (fun _ =>
         bind (print (MeanRmse (np_mean rmses))) (fun _ =>
           ret (np_mean rmses)))) st.
Proof.
  intros Hparse. unfold main, main_evaluation. rewrite Hparse.
  do 3 (rewrite bind_assoc; apply bind_ext; intros ? ?). done.
Qed.

Lemma for_enumerate_ext body1 body2 fuel : forall g n rmses st,
  (forall n fold rmses st, body1 n fold rmses st = body2 n fold rmses st) ->
  for_enumerate fuel g n body1 rmses st = for_enumerate fuel g n body2 rmses st.
Proof.
  induction fuel as [|fuel IH]; intros g n rmses st Hbody; [done|].
  simpl. apply bind_ext. intros [[fold|] g'] st1; [|done].
  rewrite (bind_run _ _ _ _ _ (Hbody n fold rmses st1)).
  apply bind_ext. intros rmses1 st2. by apply IH.
Qed.

Lemma fold_body_options ns1 ns2 R n fold rmses st :
  same_algorithm_options ns1 ns2 ->
  fold_body ns1 R n fold rmses st = fold_body ns2 R n fold rmses st.
Proof.
  intros Hsame. destruct fold as [trainSet testSet]. unfold fold_body.
  apply bind_ext. intros _ st1.
  by rewrite (bind_run _ _ _ _ _ (getRmse_options _ _ R _ _ st1 Hsame)).
Qed.

Lemma cross_validate_options ns1 ns2 rmses st :
  same_algorithm_options ns1 ns2 ->
  args.dataset ns1 = args.dataset ns2 -> args.cv ns1 = args.cv ns2 ->
  cross_validate ns1 rmses st = cross_validate ns2 rmses st.
Proof.
  intros Hsame Hdataset Hcv. unfold cross_validate. rewrite Hdataset, Hcv.
  apply bind_ext. intros [l R] st1. apply bind_ext. intros _ st2.
  apply for_enumerate_ext. intros. by apply fold_body_options.
Qed.

Lemma train_test_files_options ns1 ns2 rmses st :
  same_algorithm_options ns1 ns2 ->
  args.dataset ns1 = args.dataset ns2 ->
  args.trainFile ns1 = args.trainFile ns2 ->
  args.testFile ns1 = args.testFile ns2 ->
  train_test_files ns1 rmses st = train_test_files ns2 rmses st.
Proof.
  intros Hsame Hdataset Htrain Htest. unfold train_test_files.
  rewrite Hdataset, Htrain, Htest.
  apply bind_ext. intros [trainRaw R1] st1.
  apply bind_ext. intros [testRaw R2] st2.
  by rewrite (bind_run _ _ _ _ _ (getRmse_options _ _ R2 _ _ st2 Hsame)).
Qed.

(** Two namespaces that differ only in what the mode they are in does not
    read give the same evaluation. *)
Lemma main_evaluation_options ns1 ns2 st :
  same_algorithm_options ns1 ns2 ->
  args.seed ns1 = args.seed ns2 ->
  args.dataset ns1 = args.dataset ns2 ->
  (truthy (args.trainFile ns1) && truthy (args.testFile ns1) = true
   /\ args.trainFile ns1 = args.trainFile ns2
   /\ args.testFile ns1 = args.testFile ns2)
  \/ (truthy (args.trainFile ns1) && truthy (args.testFile ns1) = false
      /\ truthy (args.trainFile ns2) && truthy (args.testFile ns2) = false
      /\ args.cv ns1 = args.cv ns2) ->
  main_evaluation ns1 st = main_evaluation ns2 st.
Proof.
  intros Hsame Hseed Hdataset Hmode. unfold main_evaluation. rewrite Hseed.
  do 3 (apply bind_ext; intros ? ?).
  destruct Hmode as [(Hm & Htrain & Htest)|(Hm1 & Hm2 & Hcv)].
  - rewrite <-Htrain, <-Htest, Hm. by apply train_test_files_options.
  - rewrite Hm1, Hm2. by apply cross_validate_options.
Qed.

Lemma main_same_outcome argv1 argv2 ns1 ns2 st :
  parse_args argv1 = inr ns1 -> parse_args argv2 = inr ns2 ->
  main_evaluation ns1 st = main_evaluation ns2 st ->
  same_outcome (main argv1 st) (main argv2 st).
Proof.
  intros Hp1 Hp2 Heval.
  rewrite (main_as_evaluation _ _ _ Hp1), (main_as_evaluation _ _ _ Hp2).
  unfold bind at 1 4. rewrite Heval.
  destruct (main_evaluation ns2 st) as [[e|rmses] st1]; [done|].
  unfold same_outcome. simpl. repeat split.
  by rewrite !List.filter_app.
Qed.

(** X9. [--withDump] is parsed and never read: a command line with the
    flag and one without it, the same otherwise, give runs of [main] with
    the same outcome (value or exception, list, generator and world at the
    end, and trace but for the namespace that is printed). *)
Theorem withDump_has_no_effect (argv1 argv2 : list string) (ns : Namespace)
    (b : bool) (st : state) :
  parse_args argv1 = inr ns ->
  parse_args argv2 = inr (set_withDump b ns) ->
  same_outcome (main argv1 st) (main argv2 st).
Proof.
  intros Hp1 Hp2. apply (main_same_outcome _ _ _ _ _ Hp1 Hp2).
  apply main_evaluation_options; try done.
  destruct (truthy (args.trainFile ns) && truthy (args.testFile ns)) eqn:Hm;
    [left|right]; done.
Qed.

(** X10. With both [-trainFile] and [-testFile] set, [-cv] is ignored: two
    command lines that differ in the fold count alone give runs of [main]
    with the same outcome. *)
Theorem cv_ignored_with_files (argv1 argv2 : list string) (ns : Namespace)
    (cv : Z) (st : state) :
  parse_args argv1 = inr ns ->
  parse_args argv2 = inr (set_cv cv ns) ->
  truthy (args.trainFile ns) && truthy (args.testFile ns) = true ->
  same_outcome (main argv1 st) (main argv2 st).
Proof.
  intros Hp1 Hp2 Hm. apply (main_same_outcome _ _ _ _ _ Hp1 Hp2).
  apply main_evaluation_options; try done. by left.
Qed.

(** X11. One of [-trainFile] and [-testFile] without the other is ignored:
    the run is the cross-validation run of the command line without it, and
    the file is never read. *)
Theorem lone_file_ignored (argv1 argv2 : list string) (ns : Namespace)
    (file : option string) (st : state) :
  parse_args argv1 = inr ns ->
  (truthy (args.testFile ns) = false ->
   parse_args argv2 = inr (set_trainFile file ns) ->
   same_outcome (main argv1 st) (main argv2 st))
  /\ (truthy (args.trainFile ns) = false ->
      parse_args argv2 = inr (set_testFile file ns) ->
      same_outcome (main argv1 st) (main argv2 st)).
Proof.
  intros Hp1. split; intros Hfalse Hp2;
    apply (main_same_outcome _ _ _ _ _ Hp1 Hp2);
    apply main_evaluation_options; try done; right; simpl;
    rewrite Hfalse, ?andb_false_r; done.
Qed.

(** X12. With [-seed n] the random generator that [main] finds when it
    starts does not matter: [rd.seed] replaces it before anything draws from
    it. *)
Theorem seeded_run_ignores_generator (argv : list string) (ns : Namespace)
    (n : Z) (g : G) (st : state) :
  parse_args argv = inr ns -> args.seed ns = Some n ->
  main argv (with_rng g st) = main argv st.
Proof.
  intros Hparse Hseed. unfold main. rewrite Hparse, Hseed.
  by apply bind_run.
Qed.

(** X13. When [main] runs to its end, the last two things it did are the
    print of the namespace and the print of the mean; the mean printed is
    the value that [main] has here. *)
Theorem main_prints_mean_last (argv : list string) (st st' : state) (m : F) :
  main argv st = (inr m, st') ->
  exists (ns : Namespace) (before : list event),
    parse_args argv = inr ns
    /\ trace st' = before ++ [Print (Args ns); Print (MeanRmse m)].
Proof.
  intros Hmain. destruct (parse_args argv) as [e|ns] eqn:Hparse.
  { unfold main in Hmain. by rewrite Hparse in Hmain. }
  rewrite (main_as_evaluation _ _ _ Hparse) in Hmain.
  inv_bind Hmain as rmses st1 Heval. inv_bind Hmain as [] st2 Hp1.
  inv_bind Hmain as [] st3 Hp2. apply ret_inr_inv in Hmain as [<- <-].
  apply emit_inv in Hp1 as ->. apply emit_inv in Hp2 as ->.
  exists ns, (trace st1). split; [done|]. simpl.
  by rewrite <-(assoc_L (++)).
Qed.

(** ** [main]: failures at the start, and the two-file mode *)

Lemma call_inl {X} (f : W -> (Err + X) * W) st e w :
  f (world st) = (inl e, w) ->
  call f st = (inl (Raised e),
               {| rawRatings := rawRatings st; rng := rng st; world := w;
                  trace := trace st |}).
Proof. intros Hf. unfold call. by rewrite Hf. Qed.

Lemma call_inr {X} (f : W -> (Err + X) * W) st x w :
  f (world st) = (inr x, w) ->
  call f st = (inr x,
               {| rawRatings := rawRatings st; rng := rng st; world := w;
                  trace := trace st |}).
Proof. intros Hf. unfold call. by rewrite Hf. Qed.

(** X14. A failure at the start ends [main] with the exception raised, the
    list object as it was and nothing shuffled or trained: when the
    [datasets] directory cannot be made, after the seeding alone; in
    cross-validation mode, when the ratings cannot be loaded, after the
    seeding and the directory. *)
Theorem startup_failure (argv : list string) (ns : Namespace) (st : state)
    (e : Err) (w1 w2 : W) :
  parse_args argv = inr ns ->
  let seeded := (rd_seed (args.seed ns) st).2 in
  (ensure_datasets_dir (world seeded) = (inl e, w1) ->
   main argv st
   = (inl (Raised e),
      {| rawRatings := rawRatings st; rng := rng seeded; world := w1;
         trace := trace st ++ [Seed (args.seed ns); MakeDirs] |}))
  /\ (truthy (args.trainFile ns) && truthy (args.testFile ns) = false ->
      ensure_datasets_dir (world seeded) = (inr tt, w1) ->
      dataset_getRawRatings (args.dataset ns) None w1 = (inl e, w2) ->
      main argv st
      = (inl (Raised e),
         {| rawRatings := rawRatings st; rng := rng seeded; world := w2;
            trace := trace st ++ [Seed (args.seed ns); MakeDirs;
                                  GetRawRatings (args.dataset ns) None] |})).
Proof.
  intros Hparse seeded.
  assert (rd_seed (args.seed ns) st
          = (inr tt, {| rawRatings := rawRatings st; rng := rng seeded;
                        world := world seeded;
                        trace := trace st ++ [Seed (args.seed ns)] |}))
    as Hseed.
  { subst seeded. unfold rd_seed.
    by destruct (match args.seed ns with
                 | Some n => (seed_int n, world st)
                 | None => seed_os (world st)
                 end). }
  split.
  - intros Hfail. unfold main. rewrite Hparse.
    rewrite (bind_inr _ _ _ _ _ Hseed). unfold bind at 1. rewrite emit_logged.
    apply bind_inl. rewrite (call_inl _ _ e w1) by done.
    simpl. by rewrite <-(assoc_L (++)).
  - intros Hmode Hdir Hfail.
    apply (main_propagates _ _ _ _ _ Hparse). unfold main_evaluation.
    rewrite (bind_inr _ _ _ _ _ Hseed). unfold bind at 1. rewrite emit_logged.
    erewrite bind_inr; [|apply call_inr; exact Hdir].
    rewrite Hmode. unfold cross_validate. apply bind_inl.
    unfold getRawRatings. unfold bind at 1. rewrite emit_logged.
    rewrite (call_inl _ _ e w2) by done.
    simpl. by rewrite <-!(assoc_L (++)).
Qed.

Lemma getRawRatings_inv name file st r st' :
  getRawRatings name file st = (inr r, st') ->
  dataset_getRawRatings name file (world st) = (inr r, world st')
  /\ rawRatings st' = rawRatings st.
Proof.
  unfold getRawRatings. intros Hget. inv_bind Hget as [] st1 He.
  apply emit_inv in He as ->. unfold call in Hget. simpl in Hget.
  destruct (dataset_getRawRatings name file (world st)) as [[e|r'] w'];
    [done|].
  by injection Hget as <- <-.
Qed.

(** X15. With both files set, a run of [main] that returns has loaded the
    training file and then the test file, has called [getRmse] once, on the
    two rating lists and with the reader class that came with the test
    file, and returns [numpy.mean] of that one value; the list object of
    the cross-validation is as it was. *)
Theorem two_files_run (argv : list string) (ns : Namespace)
    (st st' : state) (m : F) :
  parse_args argv = inr ns ->
  truthy (args.trainFile ns) && truthy (args.testFile ns) = true ->
  main argv st = (inr m, st') ->
  exists (trainRaw testRaw : list Raw) (R1 R2 : Reader) (w0 w1 w2 : W)
         (st1 st2 : state) (r : F),
    dataset_getRawRatings (args.dataset ns) (args.trainFile ns) w0
    = (inr (trainRaw, R1), w1)
    /\ dataset_getRawRatings (args.dataset ns) (args.testFile ns) w1
       = (inr (testRaw, R2), w2)
    /\ world st1 = w2
    /\ getRmse ns R2 trainRaw testRaw st1 = (inr r, st2)
    /\ m = np_mean [r]
    /\ rawRatings st' = rawRatings st.
Proof.
  intros Hparse Hmode Hmain.
  rewrite (main_as_evaluation _ _ _ Hparse) in Hmain.
  inv_bind Hmain as rmses sta Heval. inv_bind Hmain as [] stb Hp1.
  inv_bind Hmain as [] stc Hp2. apply ret_inr_inv in Hmain as [<- <-].
  apply emit_inv in Hp1 as ->. apply emit_inv in Hp2 as ->.
  unfold main_evaluation in Heval. rewrite Hmode in Heval.
  inv_bind Heval as [] s1 Hseed. inv_bind Heval as [] s2 Hdirs.
  inv_bind Heval as [] s3 Hcall. unfold train_test_files in Heval.
  inv_bind Heval as [trainRaw R1] s4 Hload1.
  inv_bind Heval as [testRaw R2] s5 Hload2.
  inv_bind Heval as r s6 Hrun. apply ret_inr_inv in Heval as [<- <-].
  apply getRawRatings_inv in Hload1 as [Hl1 Hk1].
  apply getRawRatings_inv in Hload2 as [Hl2 Hk2].
  exists trainRaw, testRaw, R1, R2, (world s3), (world s4), (world s5),
    s5, s6, r.
  repeat split; try done. simpl.
  pose proof (keeps_list_getRmse ns R2 trainRaw testRaw s5) as Hk3.
  rewrite Hrun in Hk3. simpl in Hk3. rewrite Hk3, Hk2, Hk1.
  apply emit_inv in Hdirs as ->. pose proof (keeps_list_call ensure_datasets_dir) as Hk4.
  specialize (Hk4 (logged s1 [MakeDirs])). rewrite Hcall in Hk4.
  simpl in Hk4. rewrite Hk4.
  unfold rd_seed in Hseed.
  destruct (match args.seed ns with
            | Some n => (seed_int n, world st)
            | None => seed_os (world st)
            end); by injection Hseed as <-.
Qed.

(** ** The command line: options that are not given, and the flags *)






End Driver.

(** * A run, worked out

    A small instance of everything [main.py] imports: ratings are triples
    of naturals, the random generator is a linear congruential one, the
    algorithm predicts a constant, the statistic is ten times the number of
    predictions and the mean is the integer mean. *)

Definition toy_randbelow (g n : nat) : nat * nat :=
  (g mod n, (5 * g + 3) mod 17)%nat.

Lemma toy_randbelow_lt g n : (0 < n)%nat -> ((toy_randbelow g n).1 < n)%nat.
Proof. intros Hn. simpl. apply Nat.mod_upper_bound. lia. Qed.

Definition toy_reader (l : list (nat * nat * Z)) : list (nat * nat * Z * nat) :=
  (fun r => (r, 0%nat)) <$> l.

Definition toy_ratings : list (nat * nat * Z) :=
  [(1, 10, 5%Z); (2, 10, 3%Z); (1, 20, 4%Z); (3, 30, 2%Z); (2, 20, 1%Z)]%nat.

Definition toy_mean (l : list Z) : Z :=
  (foldr Z.add 0 l / Z.of_nat (length l))%Z.

Definition toy_state : Type :=
  @state (nat * nat * Z) nat Z nat _ _ nat nat nat Z.

Definition toy_st0 : toy_state :=
  {| rawRatings := toy_ratings; rng := 7%nat; world := 0%nat; trace := [] |}.

Definition toy_seed_int (a : Z) : nat := Z.to_nat a.
Definition toy_seed_os (w : nat) : nat * nat := (w, w).
Definition toy_process_time (w : nat) : nat * nat := (w, S w).
Definition toy_algo_init (c : AlgoClass)
    (td : @TrainingData nat Z nat _ _) (itemBased : bool)
    (method sim : string) (k : Z) (g w : nat)
  : (unit + (Z * gmap string nat)) * (nat * nat) :=
  (inr (3%Z, ∅), (g, w)).
Definition toy_estimate (m : Z) (infos : gmap string nat) (u i : nat)
    (r : Z) (output : bool) (g w : nat)
  : (unit + (Z * Z * gmap string nat)) * (nat * nat) :=
  (inr (m, m, infos), (g, w)).
Definition toy_dump (infos : gmap string nat)
    (ps : list (@prediction Z)) (w : nat) : (unit + unit) * nat :=
  (inr tt, w).
Definition toy_computeStats (ps : list (@prediction Z)) (w : nat)
  : (unit + Z) * nat :=
  (inr (10 * Z.of_nat (length ps))%Z, w).
Definition toy_ensure_datasets_dir (w : nat) : (unit + unit) * nat :=
  (inr tt, w).
Definition toy_getRawRatings (name : string) (file : option string) (w : nat)
  : (unit + (list (nat * nat * Z) * @Reader (nat * nat * Z) nat Z nat)) * nat :=
  (inr (toy_ratings, toy_reader), w).

(** [main] and [getRmse] of the instance. *)
Definition toy_main (argv : list string) : toy_state -> _ :=
  main (Model := Z) (Err := unit) toy_randbelow toy_seed_int toy_seed_os
    toy_process_time Nat.sub id toy_algo_init toy_estimate toy_dump
    toy_computeStats toy_ensure_datasets_dir toy_getRawRatings toy_mean argv.

Definition toy_getRmse (ns : Namespace)
    (train test : list (nat * nat * Z)) : toy_state -> _ :=
  getRmse (Model := Z) (Err := unit) toy_process_time Nat.sub id
    toy_algo_init toy_estimate toy_dump toy_computeStats ns toy_reader
    train test.

(** The same list and the same generator in another world. *)
Definition toy_st1 : toy_state :=
  {| rawRatings := toy_ratings; rng := 7%nat; world := 100%nat;
     trace := [MakeDirs] |}.

(** The shuffle moves the ratings. *)
Example toy_shuffle :
  shuffle toy_randbelow toy_ratings 7%nat
  = Some ([(2, 10, 3%Z); (2, 20, 1%Z); (3, 30, 2%Z); (1, 10, 5%Z);
           (1, 20, 4%Z)]%nat, 15%nat).
Proof. vm_compute. reflexivity. Qed.

(** Five ratings in two folds: test sets of three and of two. *)
Example toy_two_folds :
  (py_list (Err := unit) toy_randbelow 3 (kFolds 2) toy_st0).1
  = inr [([(1, 10, 5%Z); (1, 20, 4%Z)],
          [(2, 10, 3%Z); (2, 20, 1%Z); (3, 30, 2%Z)]);
         ([(2, 10, 3%Z); (2, 20, 1%Z); (3, 30, 2%Z)],
          [(1, 10, 5%Z); (1, 20, 4%Z)])]%nat.
Proof. vm_compute. reflexivity. Qed.

(** More folds than ratings: the late folds are empty. *)
Example toy_five_folds :
  snd <$> (fold_at [1; 2; 3]%nat 5 <$> seqZ 0 5)
  = [[1]; [2]; [3]; []; []]%nat.
Proof. vm_compute. reflexivity. Qed.

(** Two folds with seed 3: the values of [getRmse] are 0 and 10, their mean
    is 5. *)
Example toy_run :
  (toy_main ["-cv"; "2"; "-seed"; "3"]%string toy_st0).1 = inr 5%Z.
Proof. vm_compute. reflexivity. Qed.

(** Witness of C1: two folds of the five ratings. *)
Lemma kFolds_partition_witness :
  (0 < 2)%Z /\ (Z.to_nat 2 < 3)%nat
  /\ exists s g folds,
       py_list (Err := unit) toy_randbelow 3 (kFolds 2) toy_st0
       = (inr folds, shuffled toy_st0 s g)
       /\ length folds = 2%nat
       /\ concat (snd <$> folds) ≡ₚ toy_ratings.
Proof.
  split; [lia|]. split; [lia|].
  destruct (kFolds_partition (Err := unit) toy_randbelow toy_randbelow_lt
              toy_st0 2 3) as (s & g & folds & _ & Hrun & Hlen & _ & Hperm & _);
    [lia..|].
  exists s, g, folds. auto.
Defined.

(** Witness of C2. *)
Lemma kFolds_train_test_witness :
  (Z.to_nat 2 < 3)%nat
  /\ exists s g folds,
       py_list (Err := unit) toy_randbelow 3 (kFolds 2) toy_st0
       = (inr folds, shuffled toy_st0 s g)
       /\ Forall (fun fold : fold_t => fold.1 ++ fold.2 ≡ₚ toy_ratings) folds.
Proof.
  split; [lia|].
  destruct (kFolds_train_test (Err := unit) toy_randbelow toy_randbelow_lt
              toy_st0 2 3) as (s & g & folds & _ & Hrun & Hall); [lia|].
  exists s, g, folds. split; [exact Hrun|].
  eapply Forall_impl; [exact Hall|].
  intros fold (a & b & _ & _ & _ & Hperm). exact Hperm.
Defined.

(** The training data of one rating, and an instance that has predicted
    nothing yet. *)
Definition toy_td : @TrainingData nat Z nat _ _ :=
  {| rawToInnerIdUsers := id_index [1%nat];
     rawToInnerIdItems := id_index [10%nat];
     ratings := [(1, 10, 5%Z, 0)]%nat |}.
Definition toy_algo : @Algo Z nat Z :=
  {| infos := ∅; preds := []; model := 3%Z |}.

(** Witness of C3: user 9 was never seen in training. *)
Lemma unknown_identifier_skipped_witness :
  new_TrainingData (Err := unit) [(1, 10, 5%Z, 0)]%nat = inr toy_td
  /\ (rawUser (9, 10, 4%Z, 0)%nat ∉ rawUser <$> [(1, 10, 5%Z, 0)]%nat
      \/ rawItem (9, 10, 4%Z, 0)%nat ∉ rawItem <$> [(1, 10, 5%Z, 0)]%nat)
  /\ test_query (Err := unit) toy_estimate defaults toy_td toy_algo
       (9, 10, 4%Z, 0)%nat toy_st0
     = (inr toy_algo, logged toy_st0 []).
Proof.
  assert (rawUser (9, 10, 4%Z, 0)%nat ∉ rawUser <$> [(1, 10, 5%Z, 0)]%nat
          \/ rawItem (9, 10, 4%Z, 0)%nat ∉ rawItem <$> [(1, 10, 5%Z, 0)]%nat)
    as Hq.
  { left. simpl. intros Hin. apply list_elem_of_singleton in Hin. discriminate Hin. }
  split; [reflexivity|]. split; [exact Hq|].
  exact (proj1 (unknown_identifier_skipped (Err := unit) toy_estimate defaults
                  [(1, 10, 5%Z, 0)]%nat toy_td [] [] (9, 10, 4%Z, 0)%nat
                  toy_algo toy_st0 eq_refl Hq)).
Defined.

(** C4 as stated fails: [-cv 0] is let through, and the run goes on to
    load and shuffle the ratings and to report a mean. *)
Lemma configuration_errors_not_caught :
  ~ configuration_errors_caught
  /\ exists v st', toy_main ["-cv"; "0"]%string toy_st0 = (inr v, st')
                   /\ Shuffle ∈ trace st'.
Proof.
  split.
  - intros Hcaught.
    destruct (Hcaught ["-cv"; "0"]%string _ eq_refl) as (_ & _ & Hcv).
    vm_compute in Hcv. discriminate.
  - eexists _, _. split; [vm_compute; reflexivity|].
    simpl. do 3 right. left.
Qed.



(** Witness of C7: two runs seeded with 7, in different worlds. *)
Lemma kFolds_deterministic_witness :
  rawRatings toy_st0 = rawRatings toy_st1
  /\ rng toy_st0 = toy_seed_int 7 /\ rng toy_st1 = toy_seed_int 7
  /\ exists s g,
       forall fuel : nat, (Z.to_nat 2 < fuel)%nat ->
         py_list (Err := unit) toy_randbelow fuel (kFolds 2) toy_st0
         = (inr (folds_of s 2), shuffled toy_st0 s g)
         /\ py_list (Err := unit) toy_randbelow fuel (kFolds 2) toy_st1
            = (inr (folds_of s 2), shuffled toy_st1 s g).
Proof.
  split; [reflexivity|]. split; [reflexivity|]. split; [reflexivity|].
  destruct (kFolds_deterministic (Model := Z) (Err := unit)
              toy_randbelow toy_randbelow_lt toy_seed_int toy_seed_os
              toy_process_time Nat.sub id toy_algo_init toy_estimate toy_dump
              toy_computeStats toy_ensure_datasets_dir toy_getRawRatings
              toy_mean defaults toy_reader 2 7 [] toy_st0 toy_st1
              eq_refl eq_refl eq_refl)
    as (_ & s & g & _ & Hfolds & _).
  exists s, g. exact Hfolds.
Defined.

(** Witness of C8: trained on two ratings, tested on two, of which one has
    a user that was not seen. *)
Lemma getRmse_reports_witness :
  exists v st',
    toy_getRmse defaults [(1, 10, 5%Z); (2, 20, 1%Z)]%nat
      [(1, 20, 4%Z); (3, 10, 2%Z)]%nat toy_st0 = (inr v, st')
    /\ exists td (a : @Algo Z nat Z) before,
         new_TrainingData (Err := unit)
           (toy_reader [(1, 10, 5%Z); (2, 20, 1%Z)]%nat) = inr td
         /\ trace st' = before ++ [DumpInfos (infos a) (preds a);
                                   Print (Line "--------------------");
                                   Print (Line "Results:");
                                   ComputeStats (preds a)]
         /\ is_Some (infos a !! "trainingTime"%string)
         /\ is_Some (infos a !! "testingTime"%string)
         /\ query_of <$> preds a
            = known_queries td (toy_reader [(1, 20, 4%Z); (3, 10, 2%Z)]%nat).
Proof.
  destruct (toy_getRmse defaults [(1, 10, 5%Z); (2, 20, 1%Z)]%nat
              [(1, 20, 4%Z); (3, 10, 2%Z)]%nat toy_st0)
    as [[e|v] st'] eqn:Hrun.
  { vm_compute in Hrun. discriminate. }
  exists v, st'. split; [reflexivity|].
  exact (proj2 (getRmse_reports (Model := Z) (Err := unit) toy_process_time
                  Nat.sub id toy_algo_init toy_estimate toy_dump
                  toy_computeStats defaults toy_reader _ _) toy_st0 st' v Hrun).
Defined.

(** Witness of C9: after the first request the list is another one. *)
Lemma kFolds_shuffles_in_place_witness :
  exists s g,
    shuffle toy_randbelow (rawRatings toy_st0) (rng toy_st0) = Some (s, g)
    /\ s ≡ₚ rawRatings toy_st0
    /\ s ≠ rawRatings toy_st0
    /\ exists r st',
         next (Err := unit) toy_randbelow (kFolds 2) toy_st0 = (inr r, st')
         /\ rawRatings st' = s.
Proof.
  destruct (kFolds_shuffles_in_place (Err := unit) toy_randbelow
              toy_randbelow_lt toy_st0 2)
    as (s & g & Hs & Hp & (r & st' & Hnext & Hlist & _) & _).
  exists s, g. split; [exact Hs|]. split; [exact Hp|]. split.
  - intros ->. vm_compute in Hs. discriminate.
  - exists r, st'. auto.
Defined.

(** The namespace of [-cv 0]. *)
Definition toy_ns0 : Namespace := set_cv 0 defaults.

(** Witness of C10: no fold, and a mean over no value. *)
Lemma kFolds_nonpositive_witness :
  (0 <= 0)%Z /\ (0 < 1)%nat
  /\ parse_args ["-cv"; "0"]%string = inr toy_ns0
  /\ (args.cv toy_ns0 <= 0)%Z
  /\ truthy (args.trainFile toy_ns0) && truthy (args.testFile toy_ns0) = false
  /\ (exists s g,
        py_list (Err := unit) toy_randbelow 1 (kFolds 0) toy_st0
        = (inr [], shuffled toy_st0 s g))
  /\ (toy_main ["-cv"; "0"]%string toy_st0).1 = inr (toy_mean []).
Proof.
  split; [lia|]. split; [lia|]. split; [reflexivity|]. split; [simpl; lia|].
  split; [reflexivity|].
  destruct (kFolds_nonpositive (Model := Z) (Err := unit)
              toy_randbelow toy_randbelow_lt toy_seed_int toy_seed_os
              toy_process_time Nat.sub id toy_algo_init toy_estimate toy_dump
              toy_computeStats toy_ensure_datasets_dir toy_getRawRatings
              toy_mean 0 1 toy_st0 ["-cv"; "0"]%string toy_ns0)
    as ((s & g & _ & Hrun) & Hmain); [lia..|].
  split; [by exists s, g|].
  unfold toy_main. rewrite Hmain by (first [reflexivity | simpl; lia]).
  vm_compute. reflexivity.
Defined.

(** * The further properties, on the instance *)

(** No rating at all. *)
Definition toy_st_empty : toy_state :=
  {| rawRatings := []; rng := 7%nat; world := 0%nat; trace := [] |}.

(** An algorithm whose [predict] raises. *)
Definition toy_estimate_fails (m : Z) (infos : gmap string nat) (u i : nat)
    (r : Z) (output : bool) (g w : nat)
  : (unit + (Z * Z * gmap string nat)) * (nat * nat) :=
  (inl tt, (g, S w)).

(** A [datasets] directory that cannot be made, and a dataset that cannot
    be loaded. *)
Definition toy_makedirs_fails (w : nat) : (unit + unit) * nat :=
  (inl tt, S w).
Definition toy_getRawRatings_fails (name : string) (file : option string)
    (w : nat)
  : (unit + (list (nat * nat * Z) * @Reader (nat * nat * Z) nat Z nat)) * nat :=
  (inl tt, S (S w)).

(** The namespace of [-trainFile a -testFile b]. *)
Definition toy_ns_files : Namespace :=
  set_testFile (Some "b"%string) (set_trainFile (Some "a"%string) defaults).

(** Witness of X1: seven folds of the five ratings. *)
Lemma kFolds_leave_one_out_witness :
  (0 < 7)%Z /\ (len (rawRatings toy_st0) <= 7)%Z /\ (Z.to_nat 7 < 8)%nat
  /\ exists s g,
       shuffle toy_randbelow (rawRatings toy_st0) (rng toy_st0) = Some (s, g)
       /\ py_list (Err := unit) toy_randbelow 8 (kFolds 7) toy_st0
          = (inr ((fun i : nat => (delete i s, option_list (s !! i)))
                  <$> seq 0 (Z.to_nat 7)),
             shuffled toy_st0 s g).
Proof.
  assert (len (rawRatings toy_st0) <= 7)%Z as Hlen by (by vm_compute).
  split; [lia|]. split; [exact Hlen|]. split; [simpl; lia|].
  apply (kFolds_leave_one_out (Err := unit) toy_randbelow toy_randbelow_lt
           toy_st0 7 8); [lia|exact Hlen|simpl; lia].
Defined.

(** Witness of X2. *)
Lemma kFolds_single_fold_witness :
  (1 < 2)%nat
  /\ exists s g,
       shuffle toy_randbelow (rawRatings toy_st0) (rng toy_st0) = Some (s, g)
       /\ py_list (Err := unit) toy_randbelow 2 (kFolds 1) toy_st0
          = (inr [([], s)], shuffled toy_st0 s g).
Proof.
  split; [lia|].
  apply (kFolds_single_fold (Err := unit) toy_randbelow toy_randbelow_lt
           toy_st0 2); lia.
Defined.

(** Witness of X3: three folds, every rating trained on twice. *)
Lemma kFolds_training_sets_witness :
  (0 < 3)%Z /\ (Z.to_nat 3 < 4)%nat
  /\ exists s g folds,
       shuffle toy_randbelow (rawRatings toy_st0) (rng toy_st0) = Some (s, g)
       /\ py_list (Err := unit) toy_randbelow 4 (kFolds 3) toy_st0
          = (inr folds, shuffled toy_st0 s g)
       /\ concat (fst <$> folds) ≡ₚ concat (replicate (Z.to_nat 3 - 1) s).
Proof.
  split; [lia|]. split; [simpl; lia|].
  apply (kFolds_training_sets (Err := unit) toy_randbelow toy_randbelow_lt
           toy_st0 3 4); [lia|simpl; lia].
Defined.

(** Witness of X4: three folds of nothing. *)
Lemma kFolds_empty_witness :
  rawRatings toy_st_empty = [] /\ (Z.to_nat 3 < 4)%nat
  /\ py_list (Err := unit) toy_randbelow 4 (kFolds 3) toy_st_empty
     = (inr (replicate (Z.to_nat 3) ([], [])),
        shuffled toy_st_empty [] (rng toy_st_empty)).
Proof.
  split; [reflexivity|]. split; [simpl; lia|].
  apply (kFolds_empty (Err := unit) toy_randbelow toy_st_empty 3 4);
    [reflexivity|simpl; lia].
Defined.

(** Witness of X5: the clock goes one tick at a reading, the training time
    is one tick. *)
Lemma trainingTime_before_training_witness :
  exists v st',
    toy_getRmse defaults [(1, 10, 5%Z); (2, 20, 1%Z)]%nat
      [(1, 20, 4%Z); (3, 10, 2%Z)]%nat toy_st0 = (inr v, st')
    /\ exists inf (ps : list (@prediction Z)) before,
         trace st' = before ++ [DumpInfos inf ps;
                                Print (Line "--------------------");
                                Print (Line "Results:");
                                ComputeStats ps]
         /\ inf !! "trainingTime"%string = Some 1%nat.
Proof.
  destruct (toy_getRmse defaults [(1, 10, 5%Z); (2, 20, 1%Z)]%nat
              [(1, 20, 4%Z); (3, 10, 2%Z)]%nat toy_st0)
    as [[e|v] st'] eqn:Hrun.
  { vm_compute in Hrun. discriminate. }
  exists v, st'. split; [reflexivity|].
  exact (trainingTime_before_training (Model := Z) (Err := unit)
           toy_process_time Nat.sub id toy_algo_init toy_estimate toy_dump
           toy_computeStats defaults toy_reader _ _ toy_st0 st' v Hrun).
Defined.

(** Witness of X6. *)
Lemma getRmse_empty_test_witness :
  toy_reader [] = []
  /\ emits (fun e => (forall u i r, e <> Predict u i r)
                     /\ (forall inf ps, e = DumpInfos inf ps -> ps = [])
                     /\ (forall ps, e = ComputeStats ps -> ps = []))
       (toy_getRmse defaults toy_ratings []).
Proof.
  split; [reflexivity|].
  exact (getRmse_empty_test (Model := Z) (Err := unit) toy_process_time
           Nat.sub id toy_algo_init toy_estimate toy_dump toy_computeStats
           defaults toy_reader toy_ratings [] eq_refl).
Defined.

(** Witness of X7: the first query is known and its prediction fails; the
    second is not reached. *)
Lemma predict_failure_ends_loop_witness :
  test_loop (Err := unit) toy_estimate_fails defaults toy_td [] toy_algo
    toy_st0 = (inr toy_algo, toy_st0)
  /\ rawToInnerIdUsers toy_td !! rawUser (1, 10, 4%Z, 0)%nat = Some 0%nat
  /\ rawToInnerIdItems toy_td !! rawItem (1, 10, 4%Z, 0)%nat = Some 0%nat
  /\ toy_estimate_fails 3 ∅ 0 0 4 false 7 0 = (inl tt, (7, 1))%nat
  /\ test_loop (Err := unit) toy_estimate_fails defaults toy_td
       [(1, 10, 4%Z, 0); (1, 10, 2%Z, 0)]%nat toy_algo toy_st0
     = (inl (Raised tt),
        {| rawRatings := toy_ratings; rng := 7%nat; world := 1%nat;
           trace := [Predict 0 0 4%Z] |}).
Proof.
  split; [reflexivity|]. split; [reflexivity|]. split; [reflexivity|].
  split; [reflexivity|].
  exact (predict_failure_ends_loop (Err := unit) toy_estimate_fails defaults
           toy_td [] [(1, 10, 2%Z, 0)%nat] (1, 10, 4%Z, 0)%nat toy_algo
           toy_algo toy_st0 toy_st0 0 0 tt 7%nat 1%nat
           eq_refl eq_refl eq_refl eq_refl).
Defined.

(** Witness of X8: another fold count and the dump flag. *)
Lemma getRmse_reads_six_options_witness :
  same_algorithm_options defaults (set_withDump true (set_cv 3 defaults))
  /\ toy_getRmse defaults [(1, 10, 5%Z)]%nat [(1, 10, 4%Z)]%nat toy_st0
     = toy_getRmse (set_withDump true (set_cv 3 defaults))
         [(1, 10, 5%Z)]%nat [(1, 10, 4%Z)]%nat toy_st0.
Proof.
  assert (same_algorithm_options defaults
            (set_withDump true (set_cv 3 defaults))) as Hsame
    by (repeat split).
  split; [exact Hsame|].
  exact (getRmse_reads_six_options (Model := Z) (Err := unit)
           toy_process_time Nat.sub id toy_algo_init toy_estimate toy_dump
           toy_computeStats _ _ toy_reader _ _ toy_st0 Hsame).
Defined.

(** Witness of X9. *)
Lemma withDump_has_no_effect_witness :
  parse_args [] = inr defaults
  /\ parse_args ["--withDump"]%string = inr (set_withDump true defaults)
  /\ same_outcome (toy_main [] toy_st0)
       (toy_main ["--withDump"]%string toy_st0).
Proof.
  split; [reflexivity|]. split; [reflexivity|].
  exact (withDump_has_no_effect (Model := Z) (Err := unit) toy_randbelow
           toy_seed_int toy_seed_os toy_process_time Nat.sub id
           toy_algo_init toy_estimate toy_dump toy_computeStats
           toy_ensure_datasets_dir toy_getRawRatings toy_mean
           [] ["--withDump"]%string defaults true toy_st0 eq_refl eq_refl).
Defined.

(** Witness of X10. *)
Lemma cv_ignored_with_files_witness :
  parse_args ["-trainFile"; "a"; "-testFile"; "b"]%string = inr toy_ns_files
  /\ parse_args ["-trainFile"; "a"; "-testFile"; "b"; "-cv"; "3"]%string
     = inr (set_cv 3 toy_ns_files)
  /\ truthy (args.trainFile toy_ns_files)
     && truthy (args.testFile toy_ns_files) = true
  /\ same_outcome
       (toy_main ["-trainFile"; "a"; "-testFile"; "b"]%string toy_st0)
       (toy_main ["-trainFile"; "a"; "-testFile"; "b"; "-cv"; "3"]%string
          toy_st0).
Proof.
  split; [reflexivity|]. split; [reflexivity|]. split; [reflexivity|].
  exact (cv_ignored_with_files (Model := Z) (Err := unit) toy_randbelow
           toy_seed_int toy_seed_os toy_process_time Nat.sub id
           toy_algo_init toy_estimate toy_dump toy_computeStats
           toy_ensure_datasets_dir toy_getRawRatings toy_mean
           ["-trainFile"; "a"; "-testFile"; "b"]%string
           ["-trainFile"; "a"; "-testFile"; "b"; "-cv"; "3"]%string
           toy_ns_files 3 toy_st0 eq_refl eq_refl eq_refl).
Defined.

(** Witness of X11: a training file alone, a test file alone. *)
Lemma lone_file_ignored_witness :
  parse_args [] = inr defaults
  /\ truthy (args.testFile defaults) = false
  /\ truthy (args.trainFile defaults) = false
  /\ parse_args ["-trainFile"; "a"]%string
     = inr (set_trainFile (Some "a"%string) defaults)
  /\ parse_args ["-testFile"; "a"]%string
     = inr (set_testFile (Some "a"%string) defaults)
  /\ same_outcome (toy_main [] toy_st0)
       (toy_main ["-trainFile"; "a"]%string toy_st0)
  /\ same_outcome (toy_main [] toy_st0)
       (toy_main ["-testFile"; "a"]%string toy_st0).
Proof.
  do 5 (split; [reflexivity|]). split.
  - exact (proj1 (lone_file_ignored (Model := Z) (Err := unit) toy_randbelow
                    toy_seed_int toy_seed_os toy_process_time Nat.sub id
                    toy_algo_init toy_estimate toy_dump toy_computeStats
                    toy_ensure_datasets_dir toy_getRawRatings toy_mean
                    [] ["-trainFile"; "a"]%string defaults (Some "a"%string)
                    toy_st0 eq_refl) eq_refl eq_refl).
  - exact (proj2 (lone_file_ignored (Model := Z) (Err := unit) toy_randbelow
                    toy_seed_int toy_seed_os toy_process_time Nat.sub id
                    toy_algo_init toy_estimate toy_dump toy_computeStats
                    toy_ensure_datasets_dir toy_getRawRatings toy_mean
                    [] ["-testFile"; "a"]%string defaults (Some "a"%string)
                    toy_st0 eq_refl) eq_refl eq_refl).
Defined.

(** Witness of X12: the generator left at 11 rather than at 7. *)
Lemma seeded_run_ignores_generator_witness :
  parse_args ["-seed"; "3"]%string = inr (set_seed (Some 3%Z) defaults)
  /\ args.seed (set_seed (Some 3%Z) defaults) = Some 3%Z
  /\ toy_main ["-seed"; "3"]%string (with_rng 11%nat toy_st0)
     = toy_main ["-seed"; "3"]%string toy_st0.
Proof.
  split; [reflexivity|]. split; [reflexivity|].
  exact (seeded_run_ignores_generator (Model := Z) (Err := unit)
           toy_randbelow toy_seed_int toy_seed_os toy_process_time Nat.sub
           id toy_algo_init toy_estimate toy_dump toy_computeStats
           toy_ensure_datasets_dir toy_getRawRatings toy_mean
           ["-seed"; "3"]%string (set_seed (Some 3%Z) defaults) 3 11%nat
           toy_st0 eq_refl eq_refl).
Defined.

(** Witness of X13. *)
Lemma main_prints_mean_last_witness :
  exists m st',
    toy_main ["-cv"; "2"; "-seed"; "3"]%string toy_st0 = (inr m, st')
    /\ exists ns before,
         parse_args ["-cv"; "2"; "-seed"; "3"]%string = inr ns
         /\ trace st' = before ++ [Print (Args ns); Print (MeanRmse m)].
Proof.
  destruct (toy_main ["-cv"; "2"; "-seed"; "3"]%string toy_st0)
    as [[e|m] st'] eqn:Hrun.
  { vm_compute in Hrun. discriminate. }
  exists m, st'. split; [reflexivity|].
  exact (main_prints_mean_last (Model := Z) (Err := unit) toy_randbelow
           toy_seed_int toy_seed_os toy_process_time Nat.sub id
           toy_algo_init toy_estimate toy_dump toy_computeStats
           toy_ensure_datasets_dir toy_getRawRatings toy_mean
           ["-cv"; "2"; "-seed"; "3"]%string toy_st0 st' m Hrun).
Defined.

(** Witness of X14: the directory cannot be made; the ratings cannot be
    loaded. *)
Lemma startup_failure_witness :
  parse_args ["-seed"; "3"]%string = inr (set_seed (Some 3%Z) defaults)
  /\ main (Model := Z) (Err := unit) toy_randbelow toy_seed_int toy_seed_os
       toy_process_time Nat.sub id toy_algo_init toy_estimate toy_dump
       toy_computeStats toy_makedirs_fails toy_getRawRatings toy_mean
       ["-seed"; "3"]%string toy_st0
     = (inl (Raised tt),
        {| rawRatings := toy_ratings; rng := 3%nat; world := 1%nat;
           trace := [Seed (Some 3%Z); MakeDirs] |})
  /\ main (Model := Z) (Err := unit) toy_randbelow toy_seed_int toy_seed_os
       toy_process_time Nat.sub id toy_algo_init toy_estimate toy_dump
       toy_computeStats toy_ensure_datasets_dir toy_getRawRatings_fails
       toy_mean ["-seed"; "3"]%string toy_st0
     = (inl (Raised tt),
        {| rawRatings := toy_ratings; rng := 3%nat; world := 2%nat;
           trace := [Seed (Some 3%Z); MakeDirs;
                     GetRawRatings "ml-100k" None] |}).
Proof.
  split; [reflexivity|]. split.
  - exact (proj1 (startup_failure (Model := Z) (Err := unit) toy_randbelow
                    toy_seed_int toy_seed_os toy_process_time Nat.sub id
                    toy_algo_init toy_estimate toy_dump toy_computeStats
                    toy_makedirs_fails toy_getRawRatings toy_mean
                    ["-seed"; "3"]%string (set_seed (Some 3%Z) defaults)
                    toy_st0 tt 1%nat 0%nat eq_refl) eq_refl).
  - exact (proj2 (startup_failure (Model := Z) (Err := unit) toy_randbelow
                    toy_seed_int toy_seed_os toy_process_time Nat.sub id
                    toy_algo_init toy_estimate toy_dump toy_computeStats
                    toy_ensure_datasets_dir toy_getRawRatings_fails toy_mean
                    ["-seed"; "3"]%string (set_seed (Some 3%Z) defaults)
                    toy_st0 tt 0%nat 2%nat eq_refl) eq_refl eq_refl eq_refl).
Defined.

(** Witness of X15. *)
Lemma two_files_run_witness :
  parse_args ["-trainFile"; "a"; "-testFile"; "b"]%string = inr toy_ns_files
  /\ truthy (args.trainFile toy_ns_files)
     && truthy (args.testFile toy_ns_files) = true
  /\ exists m st',
       toy_main ["-trainFile"; "a"; "-testFile"; "b"]%string toy_st0
       = (inr m, st')
       /\ rawRatings st' = rawRatings toy_st0
       /\ exists r, m = toy_mean [r].
Proof.
  split; [reflexivity|]. split; [reflexivity|].
  destruct (toy_main ["-trainFile"; "a"; "-testFile"; "b"]%string toy_st0)
    as [[e|m] st'] eqn:Hrun.
  { vm_compute in Hrun. discriminate. }
  exists m, st'. split; [reflexivity|].
  destruct (two_files_run (Model := Z) (Err := unit) toy_randbelow
              toy_seed_int toy_seed_os toy_process_time Nat.sub id
              toy_algo_init toy_estimate toy_dump toy_computeStats
              toy_ensure_datasets_dir toy_getRawRatings toy_mean
              ["-trainFile"; "a"; "-testFile"; "b"]%string toy_ns_files
              toy_st0 st' m eq_refl eq_refl Hrun)
    as (_ & _ & _ & _ & _ & _ & _ & _ & _ & r & _ & _ & _ & _ & Hm & Hlist).
  split; [exact Hlist|]. by exists r.
Defined.


